(** * Soulstice POC: turn pipeline and episodic memory, shallow embedding

    The Python sources are embedded as Rocq functions:
    - [prompts/system_prompts.py]  : [simple_keyword_check]
    - [config.py]                  : the constants
    - [agent/nodes.py]             : [format_conversation_history] and the four
                                     graph nodes with the router [should_continue]
    - [agent/graph.py]             : the LangGraph wiring, as a step function
    - [memory/embedding.py], [memory/vector_store.py],
      [memory/memory_manager.py]   : the memory gateway

    Python [str] values are Rocq [string]s (sequences of 8-bit characters; the
    case conversions act on the ASCII letters).  Python [int]s are [Z].
    External collaborators (the chat model, the tokenizer, the sentence
    encoder, the Chroma collection, the JSON codec, the clock) are fields of an
    environment record; every statement quantifies over them.  Logging is
    not modelled. *)

From Stdlib Require Import String Ascii List ZArith Bool Lia Arith Permutation.
Import ListNotations.
Local Open Scope string_scope.
Local Open Scope list_scope.

(* ------------------------------------------------------------------ *)
(** * Python string methods used by the sources *)

Module PyStr.

Definition nl : string := String (ascii_of_nat 10) EmptyString.

(** [str.isspace] on one 8-bit character: TAB, LF, VT, FF, CR, FS, GS, RS,
    US and SPACE. *)
Definition is_space (c : ascii) : bool :=
  let n := nat_of_ascii c in
  (((9 <=? n) && (n <=? 13)) || ((28 <=? n) && (n <=? 32)))%nat.

Definition is_upper (c : ascii) : bool :=
  let n := nat_of_ascii c in ((65 <=? n) && (n <=? 90))%nat.

Definition is_lower (c : ascii) : bool :=
  let n := nat_of_ascii c in ((97 <=? n) && (n <=? 122))%nat.

Definition lower_char (c : ascii) : ascii :=
  if is_upper c then ascii_of_nat (nat_of_ascii c + 32) else c.

Definition upper_char (c : ascii) : ascii :=
  if is_lower c then ascii_of_nat (nat_of_ascii c - 32) else c.

Fixpoint map_chars (f : ascii -> ascii) (s : string) : string :=
  match s with
  | EmptyString => EmptyString
  | String c rest => String (f c) (map_chars f rest)
  end.

(** [s.lower()] and [s.upper()] *)
Definition lower : string -> string := map_chars lower_char.
Definition upper : string -> string := map_chars upper_char.

(** [s.capitalize()]: first character upper-cased, the rest lower-cased. *)
Definition capitalize (s : string) : string :=
  match s with
  | EmptyString => EmptyString
  | String c rest => String (upper_char c) (lower rest)
  end.

Fixpoint lstrip (s : string) : string :=
  match s with
  | EmptyString => EmptyString
  | String c rest => if is_space c then lstrip rest else s
  end.

Fixpoint rstrip (s : string) : string :=
  match s with
  | EmptyString => EmptyString
  | String c rest =>
      match rstrip rest with
      | EmptyString => if is_space c then EmptyString else String c EmptyString
      | r => String c r
      end
  end.

(** [s.strip()] *)
Definition strip (s : string) : string := rstrip (lstrip s).

(** [sub in s] *)
Fixpoint contains (sub s : string) : bool :=
  String.prefix sub s ||
  match s with
  | EmptyString => false
  | String _ rest => contains sub rest
  end.

(** [s.removeprefix(p)] *)
Definition removeprefix (p s : string) : string :=
  if String.prefix p s
  then String.substring (String.length p) (String.length s - String.length p) s
  else s.

(** [s.removesuffix(x)]; as in CPython an empty suffix removes nothing. *)
Definition removesuffix (x s : string) : string :=
  let n := String.length s - String.length x in
  if (String.length x <=? String.length s)%nat
     && negb (String.eqb x EmptyString)
     && String.eqb (String.substring n (String.length x) s) x
  then String.substring 0 n s
  else s.

(** [sep.join(parts)] *)
Definition join (sep : string) (parts : list string) : string :=
  String.concat sep parts.

(** Truth value of an [Optional[str]], as tested by [if state.get('error')]. *)
Definition truthy (o : option string) : bool :=
  match o with
  | None => false
  | Some s => negb (String.eqb s EmptyString)
  end.

(** [(o or "")] *)
Definition or_empty (o : option string) : string :=
  match o with
  | Some s => if String.eqb s EmptyString then EmptyString else s
  | None => EmptyString
  end.

End PyStr.

(* ------------------------------------------------------------------ *)
(** * agent/nodes.py: the token-budgeted history formatter *)

(** One entry of [conversation_history]: [{"role": ..., "content": ...}]. *)
Record Turn : Type := mkTurn { role : string; content : string }.

(** [f"{turn['role'].capitalize()}: {turn['content']}"] *)
Definition turn_text (turn : Turn) : string :=
  PyStr.capitalize (role turn) ++ ": " ++ content turn.

Section History.

(** [count_tokens(text) = len(tokenizer.encode(text))] for the tiktoken
    encoding selected at import time. *)
Variable count_tokens : string -> nat.

(** The body of [for turn in reversed(history)], run over the already
    reversed list [turns]; [formatted_history] and [current_tokens] are the
    two loop variables, the [else] branch is the [break]. *)
Fixpoint history_loop (turns : list Turn) (formatted_history : list string)
    (current_tokens max_tokens : Z) : list string :=
  match turns with
  | [] => formatted_history
  | turn :: older =>
      let text := turn_text turn in
      let turn_tokens := Z.of_nat (count_tokens text) in
      if (current_tokens + turn_tokens <=? max_tokens)%Z
      then history_loop older (formatted_history ++ [text])
             (current_tokens + turn_tokens)%Z max_tokens
      else formatted_history
  end.

(** [reversed(formatted_history)] when the loop is over: the rendered turns
    that made it into the window, in chronological order. *)
Definition included_turns (history : list Turn) (max_tokens : Z) : list string :=
  rev (history_loop (rev history) [] 0%Z max_tokens).

Definition format_conversation_history (history : list Turn) (max_tokens : Z)
  : string :=
  PyStr.join PyStr.nl (included_turns history max_tokens).

(** Token cost of a run of turns. *)
Definition turn_tokens (turn : Turn) : Z := Z.of_nat (count_tokens (turn_text turn)).

Definition total_tokens (turns : list Turn) : Z :=
  fold_right (fun t acc => (turn_tokens t + acc)%Z) 0%Z turns.

(** The turns the loop takes from the front of [turns], without the
    rendering and without the accumulator list. *)
Fixpoint taken (turns : list Turn) (current_tokens max_tokens : Z) : list Turn :=
  match turns with
  | [] => []
  | turn :: older =>
      if (current_tokens + turn_tokens turn <=? max_tokens)%Z
      then turn :: taken older (current_tokens + turn_tokens turn)%Z max_tokens
      else []
  end.

End History.

(* ------------------------------------------------------------------ *)
(** * config.py *)

Definition EMBEDDING_MODEL_NAME : string := "all-MiniLM-L6-v2".

Definition MAX_CONVERSATION_HISTORY_TOKENS : Z := 3000.

Definition POTENTIAL_RISK_KEYWORDS : list string :=
  ["suicide"; "kill myself"; "hopeless"; "can't go on"; "self-harm"; "abuse"].

(** The triple-quoted literal: it starts and ends with a line feed. *)
Definition ESCALATION_MESSAGE : string :=
  PyStr.nl ++
  "I understand you're going through immense pain right now. As an AI, I'm not equipped to handle crises like this, but you don't have to face this alone. Please reach out to a crisis hotline or mental health professional immediately. Here are some resources: [Include relevant local/international hotline numbers/links]. They can offer the support you need."
  ++ PyStr.nl.

(* ------------------------------------------------------------------ *)
(** * prompts/system_prompts.py *)

Fixpoint keyword_loop (text_lower : string) (keywords : list string) : bool :=
  match keywords with
  | [] => false
  | keyword :: more =>
      if PyStr.contains keyword text_lower then true
      else keyword_loop text_lower more
  end.

Definition simple_keyword_check (text : string) (keywords : list string) : bool :=
  let text_lower := PyStr.lower text in
  keyword_loop text_lower keywords.

(* ------------------------------------------------------------------ *)
(** * Data model *)

Section Model.

(** Python [float]: the carrier of embedding components and distances.  Its
    operations used by the sources are fields of the environment below. *)
Context {float : Type}.

(** A value produced by [json.loads]. *)
#[warnings="-register-all"] Inductive Json : Type :=
| JNull
| JBool (b : bool)
| JInt (z : Z)
| JFloat (f : float)
| JStr (s : string)
| JArr (items : list Json)
| JObj (fields : list (string * Json)).

(** Chroma metadata: a [dict] of strings, in insertion order. *)
Definition Metadata : Type := list (string * string).

(** An element of [retrieved]: [{"document", "metadata", "distance"}]. *)
Record MemoryRecord : Type := mkMemoryRecord {
  document : string;
  metadata : Metadata;
  distance : float
}.

(** One row handed to [collection.add]. *)
Record StoredMemory : Type := mkStoredMemory {
  sm_id : string;
  sm_embedding : list float;
  sm_document : string;
  sm_metadata : Metadata
}.

(** What [collection.query] returns: one inner list per query embedding. *)
Record QueryResult : Type := mkQueryResult {
  documents : list (list string);
  metadatas : list (list Metadata);
  distances : list (list float)
}.

(** agent/state.py: [AgentState]. *)
Record AgentState : Type := mkAgentState {
  session_id : string;
  user_input : string;
  input_analysis : option Json;
  retrieved_memories : option (list MemoryRecord);
  conversation_history : list Turn;
  response_strategy : option string;
  generated_response : option string;
  needs_escalation : bool;
  error : option string
}.

Definition set_input_analysis (state : AgentState) (v : option Json) : AgentState :=
  mkAgentState (session_id state) (user_input state) v (retrieved_memories state)
    (conversation_history state) (response_strategy state)
    (generated_response state) (needs_escalation state) (error state).

Definition set_retrieved_memories (state : AgentState)
    (v : option (list MemoryRecord)) : AgentState :=
  mkAgentState (session_id state) (user_input state) (input_analysis state) v
    (conversation_history state) (response_strategy state)
    (generated_response state) (needs_escalation state) (error state).

Definition set_generated_response (state : AgentState) (v : option string)
  : AgentState :=
  mkAgentState (session_id state) (user_input state) (input_analysis state)
    (retrieved_memories state) (conversation_history state)
    (response_strategy state) v (needs_escalation state) (error state).

Definition set_needs_escalation (state : AgentState) (v : bool) : AgentState :=
  mkAgentState (session_id state) (user_input state) (input_analysis state)
    (retrieved_memories state) (conversation_history state)
    (response_strategy state) (generated_response state) v (error state).

Definition set_error (state : AgentState) (v : option string) : AgentState :=
  mkAgentState (session_id state) (user_input state) (input_analysis state)
    (retrieved_memories state) (conversation_history state)
    (response_strategy state) (generated_response state)
    (needs_escalation state) v.

(** The four [prompt | llm | StrOutputParser()] chains with the variables
    each [invoke] receives. *)
Inductive ChainCall : Type :=
| InputAnalysis (user_input conversation_history : string)
| MemoryRetrievalQuery (user_input : string) (key_topics dominant_emotion : Json)
    (conversation_history : string)
| EthicalRiskAssessment (user_input conversation_history : string)
| ResponseGeneration (user_input input_analysis retrieved_memories
    conversation_history : string).

(** Calls that reach a collaborator, in the order they are made. *)
Inductive Event : Type :=
| LlmInvoke (call : ChainCall)
| ModelLoad
| Encode (text : string)
| ChromaOpen
| CollectionAdd (row : StoredMemory)
| CollectionQuery (query_embedding : list float) (n_results : Z)
    (where_filter : option Metadata).

(** Process state touched by a turn: the collaborator calls made so far, the
    rows of the Chroma collection, the two lazily initialised module globals
    ([_model] and [_collection], [true] once they are not [None]), and how
    many clock readings and UUIDs have been drawn. *)
Record World : Type := mkWorld {
  trace : list Event;
  collection : list StoredMemory;
  model_loaded : bool;
  collection_loaded : bool;
  clock_reads : nat;
  uuids_drawn : nat
}.

(** The collaborators.  [None] stands for a raised exception. *)
Record Env : Type := mkEnv {
  count_tokens : string -> nat;
  chain_invoke : ChainCall -> option string;
  json_loads : string -> option Json;
  json_dumps : Json -> string;
  py_str : Json -> string;
  float_is_zero : float -> bool;
  float_lt : float -> float -> bool;
  relevance_2f : float -> string;
  sentence_transformer : bool;
  model_encode : string -> option (list float);
  chroma_open : bool;
  collection_add : list StoredMemory -> StoredMemory -> bool;
  collection_query :
    list StoredMemory -> list float -> Z -> option Metadata -> option QueryResult;
  utcnow_isoformat : nat -> string;
  uuid4 : nat -> string
}.

(* ------------------------------------------------------------------ *)
(** * Exceptions and the monad of a turn *)

Inductive Exn : Type :=
| JSONDecodeError
| AttributeError
| IndexError
| BackendError
| KeyError
| GraphRecursionError.

Inductive Outcome (A : Type) : Type :=
| Returned (a : A)
| Raised (e : Exn).

Arguments Returned {A} a.
Arguments Raised {A} e.

Definition M (A : Type) : Type := World -> Outcome A * World.

Definition ret {A} (a : A) : M A := fun w => (Returned a, w).

Definition raise {A} (e : Exn) : M A := fun w => (Raised e, w).

Definition bind {A B} (m : M A) (k : A -> M B) : M B :=
  fun w =>
    match m w with
    | (Returned a, w') => k a w'
    | (Raised e, w') => (Raised e, w')
    end.

(** [try: body / except ...: handler]; the handler sees the world as the
    body left it. *)
Definition try_except {A} (body : M A) (handler : Exn -> M A) : M A :=
  fun w =>
    match body w with
    | (Returned a, w') => (Returned a, w')
    | (Raised e, w') => handler e w'
    end.

Definition emit (ev : Event) : M unit :=
  fun w => (Returned tt,
            mkWorld (trace w ++ [ev]) (collection w) (model_loaded w)
              (collection_loaded w) (clock_reads w) (uuids_drawn w)).

End Model.

Arguments Json : clear implicits.
Arguments MemoryRecord : clear implicits.
Arguments StoredMemory : clear implicits.
Arguments QueryResult : clear implicits.
Arguments AgentState : clear implicits.
Arguments ChainCall : clear implicits.
Arguments Event : clear implicits.
Arguments World : clear implicits.
Arguments Env : clear implicits.
Arguments M : clear implicits.
Arguments Returned {A} a.
Arguments Raised {A} e.

Declare Scope turn_scope.
Delimit Scope turn_scope with turn.
Notation "x <- c ;; k" := (bind c (fun x => k))
  (at level 61, c at next level, right associativity) : turn_scope.
Notation "c ;;; k" := (bind c (fun _ => k))
  (at level 61, right associativity) : turn_scope.

Local Open Scope turn_scope.

Section Memory.

Context {float : Type}.
Variable env : Env float.

(* ------------------------------------------------------------------ *)
(** * memory/embedding.py *)

(** [get_embedding_model]: loads the encoder on first use, re-raising a
    load failure. *)
Definition get_embedding_model : M float unit :=
  fun w =>
    if model_loaded w then (Returned tt, w)
    else
      let w1 := mkWorld (trace w ++ [ModelLoad]) (collection w) (model_loaded w)
                  (collection_loaded w) (clock_reads w) (uuids_drawn w) in
      if sentence_transformer env
      then (Returned tt,
            mkWorld (trace w1) (collection w1) true (collection_loaded w1)
              (clock_reads w1) (uuids_drawn w1))
      else (Raised BackendError, w1).

(** [get_embedding]: [None] on blank text and on an encoder failure. *)
Definition get_embedding (text : string) : M float (option (list float)) :=
  get_embedding_model ;;;
  if String.eqb (PyStr.strip text) EmptyString then ret None
  else
    try_except
      (emit (Encode text) ;;;
       match model_encode env text with
       | Some embedding => ret (Some embedding)
       | None => raise BackendError
       end)
      (fun _ => ret None).

(* ------------------------------------------------------------------ *)
(** * memory/vector_store.py *)

(** [get_chroma_collection]: opens the collection on first use, re-raising
    an initialisation failure. *)
Definition get_chroma_collection : M float unit :=
  fun w =>
    if collection_loaded w then (Returned tt, w)
    else
      let w1 := mkWorld (trace w ++ [ChromaOpen]) (collection w) (model_loaded w)
                  (collection_loaded w) (clock_reads w) (uuids_drawn w) in
      if chroma_open env
      then (Returned tt,
            mkWorld (trace w1) (collection w1) (model_loaded w1) true
              (clock_reads w1) (uuids_drawn w1))
      else (Raised BackendError, w1).

(** [str(uuid.uuid4())] *)
Definition fresh_uuid : M float string :=
  fun w => (Returned (uuid4 env (uuids_drawn w)),
            mkWorld (trace w) (collection w) (model_loaded w)
              (collection_loaded w) (clock_reads w) (S (uuids_drawn w))).

(** [collection.add(...)]: the row is in the collection when the call
    returns, and absent when it raises. *)
Definition collection_add_call (row : StoredMemory float) : M float unit :=
  emit (CollectionAdd row) ;;;
  fun w =>
    if collection_add env (collection w) row
    then (Returned tt,
          mkWorld (trace w) (collection w ++ [row]) (model_loaded w)
            (collection_loaded w) (clock_reads w) (uuids_drawn w))
    else (Raised BackendError, w).

(** [add_memory(embedding, document, metadata)] with [memory_id] left at
    its default. *)
Definition add_memory (embedding : option (list float)) (doc : string)
    (meta : Metadata) : M float unit :=
  get_chroma_collection ;;;
  match embedding with
  | None => ret tt
  | Some embedding =>
      memory_id <- fresh_uuid ;;
      try_except
        (collection_add_call (mkStoredMemory memory_id embedding doc meta))
        (fun _ => ret tt)
  end.

Definition empty_result : QueryResult float := mkQueryResult [[]] [[]] [[]].

(** [query_memories(query_embedding, n_results, where_filter)] *)
Definition query_memories (query_embedding : option (list float)) (n_results : Z)
    (where_filter : option Metadata) : M float (QueryResult float) :=
  get_chroma_collection ;;;
  match query_embedding with
  | None => ret empty_result
  | Some query_embedding =>
      try_except
        (emit (CollectionQuery query_embedding n_results where_filter) ;;;
         fun w =>
           match collection_query env (collection w) query_embedding n_results
                   where_filter with
           | Some results => (Returned results, w)
           | None => (Raised BackendError, w)
           end)
        (fun _ => ret empty_result)
  end.

(* ------------------------------------------------------------------ *)
(** * memory/memory_manager.py *)

(** [datetime.datetime.now(datetime.timezone.utc).isoformat()] *)
Definition utc_timestamp : M float string :=
  fun w => (Returned (utcnow_isoformat env (clock_reads w)),
            mkWorld (trace w) (collection w) (model_loaded w)
              (collection_loaded w) (S (clock_reads w)) (uuids_drawn w)).

Definition interaction_metadata (role_name timestamp session : string) : Metadata :=
  [("type", "episodic"); ("role", role_name); ("timestamp", timestamp);
   ("session_id", session); ("embedding_model", EMBEDDING_MODEL_NAME)].

(** Truth value of an embedding as tested by [if user_embedding:]. *)
Definition embedding_truthy (e : option (list float)) : bool :=
  match e with
  | Some (_ :: _) => true
  | _ => false
  end.

(** [MemoryManager.add_interaction] *)
Definition add_interaction (user_input ai_response session_id : string) : M float unit :=
  timestamp <- utc_timestamp ;;
  let user_doc := ("User said: " ++ user_input)%string in
  user_embedding <- get_embedding user_doc ;;
  let user_metadata := interaction_metadata "user" timestamp session_id in
  (if embedding_truthy user_embedding
   then add_memory user_embedding user_doc user_metadata
   else ret tt) ;;;
  let ai_doc := ("AI responded: " ++ ai_response)%string in
  ai_embedding <- get_embedding ai_doc ;;
  let ai_metadata := interaction_metadata "ai" timestamp session_id in
  if embedding_truthy ai_embedding
  then add_memory ai_embedding ai_doc ai_metadata
  else ret tt.

(** [xs[0]] *)
Definition first_item {A} (xs : list A) : M float A :=
  match xs with
  | x :: _ => ret x
  | [] => raise IndexError
  end.

(** [zip(docs, metadatas, distances)] mapped to the result dicts. *)
Fixpoint zip_records (docs : list string) (metas : list Metadata)
    (dists : list float) : list (MemoryRecord float) :=
  match docs, metas, dists with
  | doc :: docs', meta :: metas', dist :: dists' =>
      mkMemoryRecord doc meta dist :: zip_records docs' metas' dists'
  | _, _, _ => []
  end.

(** [retrieved.sort(key=lambda x: x['distance'])]: a stable sort that only
    asks whether one key is less than another. *)
Fixpoint insert_by_distance (x : MemoryRecord float)
    (sorted : list (MemoryRecord float)) : list (MemoryRecord float) :=
  match sorted with
  | [] => [x]
  | y :: rest =>
      if float_lt env (distance y) (distance x)
      then y :: insert_by_distance x rest
      else x :: y :: rest
  end.

Definition sort_by_distance (records : list (MemoryRecord float))
  : list (MemoryRecord float) :=
  fold_right insert_by_distance [] records.

(** [MemoryManager.retrieve_relevant_memories] *)
Definition retrieve_relevant_memories (query_text session_id : string)
    (n_results : Z) : M float (list (MemoryRecord float)) :=
  query_embedding <- get_embedding query_text ;;
  match query_embedding with
  | None => ret []
  | Some _ =>
      let where_filter : option Metadata := None in
      try_except
        (results <- query_memories query_embedding n_results where_filter ;;
         docs <- first_item (documents results) ;;
         metas <- first_item (metadatas results) ;;
         dists <- first_item (distances results) ;;
         let retrieved := zip_records docs metas dists in
         ret (sort_by_distance retrieved))
        (fun _ => ret [])
  end.

End Memory.

(* ------------------------------------------------------------------ *)
(** * agent/nodes.py: the graph nodes *)

Section Nodes.

Context {float : Type}.
Variable env : Env float.

(** [chain.invoke({...})] on one of the four chains. *)
Definition invoke_chain (call : ChainCall float) : M float string :=
  emit (LlmInvoke call) ;;;
  match chain_invoke env call with
  | Some text => ret text
  | None => raise BackendError
  end.

(** Truth value of a parsed JSON value. *)
Definition json_truthy (j : Json float) : bool :=
  match j with
  | JNull => false
  | JBool b => b
  | JInt z => negb (Z.eqb z 0)
  | JFloat f => negb (float_is_zero env f)
  | JStr s => negb (String.eqb s EmptyString)
  | JArr items => match items with [] => false | _ => true end
  | JObj fields => match fields with [] => false | _ => true end
  end.

Definition analysis_truthy (a : option (Json float)) : bool :=
  match a with
  | None => false
  | Some j => json_truthy j
  end.

Fixpoint lookup_field (key : string) (fields : list (string * Json float))
  : option (Json float) :=
  match fields with
  | [] => None
  | (k, v) :: rest => if String.eqb k key then Some v else lookup_field key rest
  end.

(** [analysis.get(key, default)]: only a [dict] has the method. *)
Definition dict_get (analysis : Json float) (key : string) (default : Json float)
  : M float (Json float) :=
  match analysis with
  | JObj fields =>
      match lookup_field key fields with
      | Some v => ret v
      | None => ret default
      end
  | _ => raise AttributeError
  end.

Definition history_for (state : AgentState float) (max_tokens : Z) : string :=
  format_conversation_history (count_tokens env) (conversation_history state)
    max_tokens.

Definition process_input_node (state : AgentState float)
  : M float (AgentState float) :=
  let history_str :=
    history_for state (MAX_CONVERSATION_HISTORY_TOKENS / 2) in
  try_except
    (analysis_str <- invoke_chain (InputAnalysis (user_input state) history_str) ;;
     let analysis_str :=
       PyStr.strip
         (PyStr.removesuffix "```"
            (PyStr.removeprefix "```json" (PyStr.strip analysis_str))) in
     match json_loads env analysis_str with
     | Some analysis_json => ret (set_input_analysis state (Some analysis_json))
     | None => raise JSONDecodeError
     end)
    (fun e =>
       match e with
       | JSONDecodeError =>
           let state := set_error state (Some "Failed to analyze input.") in
           ret (set_input_analysis state
                  (Some (JObj [("error", JStr "JSON parsing failed")])))
       | _ =>
           let state :=
             set_error state (Some "An error occurred during input analysis.") in
           ret (set_input_analysis state
                  (Some (JObj [("error", JStr "LLM call failed")])))
       end).

(** [retrieve_memory_node], the query text: generated by the model, or the
    templated fallback when the generation fails. *)
Definition memory_query_text (state : AgentState float) (analysis : Json float)
  : M float string :=
  let history_str :=
    history_for state (MAX_CONVERSATION_HISTORY_TOKENS / 4) in
  try_except
    (key_topics <- dict_get analysis "key_topics" (JStr "None") ;;
     dominant_emotion <- dict_get analysis "dominant_emotion" (JStr "neutral") ;;
     invoke_chain
       (MemoryRetrievalQuery (user_input state) key_topics dominant_emotion
          history_str))
    (fun _ =>
       key_topics <- dict_get analysis "key_topics" (JArr []) ;;
       dominant_emotion <- dict_get analysis "dominant_emotion" (JStr "neutral") ;;
       ret ("Topics: " ++ py_str env key_topics ++ ", Emotion: "
            ++ py_str env dominant_emotion ++ ". User input: "
            ++ user_input state)%string).

(** [retrieve_memory_node], the block under [# Perform retrieval]. *)
Definition perform_retrieval (state : AgentState float) (query_text : string)
  : M float (AgentState float) :=
  try_except
    (retrieved <-
       retrieve_relevant_memories env query_text (session_id state) 5 ;;
     ret (set_retrieved_memories state (Some retrieved)))
    (fun _ =>
       let state := set_error state (Some "Failed to retrieve memories.") in
       ret (set_retrieved_memories state (Some []))).

(** The part of [retrieve_memory_node] after the guard. *)
Definition retrieve_memory_body (state : AgentState float)
    (analysis : Json float) : M float (AgentState float) :=
  query_text <- memory_query_text state analysis ;;
  perform_retrieval state query_text.

Definition retrieve_memory_node (state : AgentState float)
  : M float (AgentState float) :=
  let skip := ret (set_retrieved_memories state (Some [])) in
  if PyStr.truthy (error state) || negb (analysis_truthy (input_analysis state))
  then skip
  else
    match input_analysis state with
    | None => skip
    | Some analysis =>
        analysis_error <- dict_get analysis "error" JNull ;;
        if json_truthy analysis_error then skip
        else retrieve_memory_body state analysis
    end.

Definition ethical_check_node (state : AgentState float)
  : M float (AgentState float) :=
  if PyStr.truthy (error state)
  then ret (set_needs_escalation state false)
  else
    let history_str :=
      history_for state (MAX_CONVERSATION_HISTORY_TOKENS / 4) in
    let needs_escalation := false in
    let needs_escalation :=
      if simple_keyword_check (user_input state) POTENTIAL_RISK_KEYWORDS
      then true else needs_escalation in
    checked <-
      try_except
        (assessment <-
           invoke_chain (EthicalRiskAssessment (user_input state) history_str) ;;
         let assessment := PyStr.upper (PyStr.strip assessment) in
         ret (state,
              if String.eqb assessment "YES" then true else needs_escalation))
        (fun _ =>
           ret (set_error state
                  (Some (PyStr.or_empty (error state)
                         ++ " Ethical check LLM failed.")%string),
                needs_escalation)) ;;
    ret (set_needs_escalation (fst checked) (snd checked)).

(** One line of [formatted_memories]. *)
Definition memory_line (m : MemoryRecord float) : string :=
  "- " ++ document m ++ " (Relevance: " ++ relevance_2f env (distance m) ++ ")".

Definition format_memories (memories : option (list (MemoryRecord float)))
  : string :=
  match memories with
  | Some (m :: more) =>
      PyStr.join PyStr.nl (map memory_line (firstn 3 (m :: more)))
  | _ => "No relevant memories found."
  end.

Definition ERROR_REPLY : string :=
  "I'm sorry, I encountered an error. Could you please rephrase?".

Definition TROUBLE_REPLY : string :=
  "I'm having trouble formulating a response right now. Could you try saying that differently?".

Definition generate_response_node (state : AgentState float)
  : M float (AgentState float) :=
  if PyStr.truthy (error state)
  then ret (set_generated_response state (Some ERROR_REPLY))
  else if needs_escalation state
  then ret (set_generated_response state (Some ESCALATION_MESSAGE))
  else
    let analysis :=
      match input_analysis state with Some j => j | None => JNull end in
    let history_str := history_for state MAX_CONVERSATION_HISTORY_TOKENS in
    let formatted_memories := format_memories (retrieved_memories state) in
    try_except
      (response <-
         invoke_chain
           (ResponseGeneration (user_input state) (json_dumps env analysis)
              formatted_memories history_str) ;;
       let state := set_generated_response state (Some response) in
       try_except
         (add_interaction env (user_input state) response (session_id state) ;;;
          ret state)
         (fun _ =>
            ret (set_error state
                   (Some (PyStr.or_empty (error state)
                          ++ " Failed to save interaction to memory.")%string))))
      (fun _ =>
         let state :=
           set_error state
             (Some (PyStr.or_empty (error state)
                    ++ " Failed to generate response.")%string) in
         ret (set_generated_response state (Some TROUBLE_REPLY))).

(** The router of the conditional edge. *)
Definition should_continue (state : AgentState float) : string :=
  if PyStr.truthy (error state) then "end"
  else if needs_escalation state then "generate_response"
  else "generate_response".

(* ------------------------------------------------------------------ *)
(** * agent/graph.py: the compiled graph *)

Inductive Node : Type :=
| process_input
| retrieve_memory
| ethical_check
| generate_response
| END.

Definition run_node (n : Node) (state : AgentState float)
  : M float (AgentState float) :=
  match n with
  | process_input => process_input_node state
  | retrieve_memory => retrieve_memory_node state
  | ethical_check => ethical_check_node state
  | generate_response => generate_response_node state
  | END => ret state
  end.

(** The path map of [add_conditional_edges]. *)
Definition path_map (label : string) : M float Node :=
  if String.eqb label "generate_response" then ret generate_response
  else if String.eqb label "end" then ret END
  else raise KeyError.

(** The edges: [add_edge] three times and the conditional edge. *)
Definition next_node (n : Node) (state : AgentState float) : M float Node :=
  match n with
  | process_input => ret retrieve_memory
  | retrieve_memory => ret ethical_check
  | ethical_check => path_map (should_continue state)
  | generate_response => ret END
  | END => ret END
  end.

(** Running the graph from node [n]; [limit] is LangGraph's recursion
    limit on the number of node executions. *)
Fixpoint run_graph (limit : nat) (n : Node) (state : AgentState float)
  : M float (AgentState float) :=
  match n with
  | END => ret state
  | _ =>
      match limit with
      | O => raise GraphRecursionError
      | S limit' =>
          state' <- run_node n state ;;
          n' <- next_node n state' ;;
          run_graph limit' n' state'
      end
  end.

Definition RECURSION_LIMIT : nat := 25.

(** [soulstice_app.invoke(current_state)] *)
Definition invoke (state : AgentState float) : M float (AgentState float) :=
  run_graph RECURSION_LIMIT process_input state.

(** The three stages that run before the conditional edge is evaluated. *)
Definition before_routing (state : AgentState float)
  : M float (AgentState float) :=
  s1 <- process_input_node state ;;
  s2 <- retrieve_memory_node s1 ;;
  ethical_check_node s2.

End Nodes.

(** main.py: the state [run_chat] builds for one turn. *)
Definition current_state {float : Type} (session_id user_input : string)
    (conversation_history : list Turn) : AgentState float :=
  mkAgentState session_id user_input None None conversation_history None None
    false None.

(** main.py: the module globals before the first turn; [run_chat] has
    already opened the collection. *)
Definition started_world {float : Type} (rows : list (StoredMemory float))
  : World float :=
  mkWorld [] rows false true 0 0.


(* ------------------------------------------------------------------ *)
(** * Vocabulary for the statements about the memory gateway *)

Section MemoryVocabulary.

Context {float : Type}.
Variable env : Env float.

(** The encoder handle can be obtained: it is loaded already, or loading
    it succeeds. *)
Definition encoder_available (w : World float) : Prop :=
  model_loaded w = true \/ sentence_transformer env = true.

(** What [get_embedding] returns once the handle is there. *)
Definition embedding_of (text : string) : option (list float) :=
  if String.eqb (PyStr.strip text) EmptyString then None
  else model_encode env text.

(** The rows handed to [collection.add] within a run of events. *)
Fixpoint added_rows (events : list (Event float)) : list (StoredMemory float) :=
  match events with
  | [] => []
  | CollectionAdd row :: rest => row :: added_rows rest
  | _ :: rest => added_rows rest
  end.

(** A store query that carries a [where] filter. *)
Definition unfiltered (ev : Event float) : bool :=
  match ev with
  | CollectionQuery _ _ (Some _) => false
  | _ => true
  end.

(** The run from [w] to [w'] appended [events] to the trace. *)
Definition extends (w w' : World float) (events : list (Event float)) : Prop :=
  trace w' = trace w ++ events.

(** The row one side of [add_interaction] hands to the store: none when
    that side's embedding is [None] or empty. *)
Definition side_rows (embedding : option (list float)) (memory_id doc : string)
    (meta : Metadata) : list (StoredMemory float) :=
  if embedding_truthy embedding
  then match embedding with
       | Some e => [mkStoredMemory memory_id e doc meta]
       | None => []
       end
  else [].

(** The collection after a run of [collection.add] calls: a row is present
    exactly when its call returned. *)
Definition apply_adds (rows : list (StoredMemory float))
    (adds : list (StoredMemory float)) : list (StoredMemory float) :=
  fold_left
    (fun rows row => if collection_add env rows row then rows ++ [row] else rows)
    adds rows.

End MemoryVocabulary.

(* ------------------------------------------------------------------ *)
(** * Vocabulary for the statements about the stages *)

(** The notes a stage writes into [error] from its exception handlers. *)
Definition stage_messages (stage : Node) : list string :=
  match stage with
  | process_input =>
      ["Failed to analyze input."; "An error occurred during input analysis."]
  | retrieve_memory => ["Failed to retrieve memories."]
  | ethical_check => [" Ethical check LLM failed."]
  | generate_response =>
      [" Failed to save interaction to memory."; " Failed to generate response."]
  | END => []
  end.

(** The text [process_input_node] hands to [json.loads]. *)
Definition cleaned_analysis (analysis_str : string) : string :=
  PyStr.strip
    (PyStr.removesuffix "```"
       (PyStr.removeprefix "```json" (PyStr.strip analysis_str))).

(* ------------------------------------------------------------------ *)
(** * Further vocabulary *)

(** Some character of the string is an upper-case ASCII letter. *)
Fixpoint has_upper (s : string) : bool :=
  match s with
  | EmptyString => false
  | String c rest => PyStr.is_upper c || has_upper rest
  end.

(** Every character of the string is an ASCII character (below 128), the
    range on which the case conversions above are those of Python. *)
Fixpoint is_ascii (s : string) : bool :=
  match s with
  | EmptyString => true
  | String c rest => (nat_of_ascii c <? 128)%nat && is_ascii rest
  end.

Section MoreVocabulary.

Context {float : Type}.
Variable env : Env float.

(** No record is followed by one with a smaller distance. *)
Fixpoint ascending (records : list (MemoryRecord float)) : bool :=
  match records with
  | x :: rest =>
      match rest with
      | y :: _ => negb (float_lt env (distance y) (distance x)) && ascending rest
      | [] => true
      end
  | [] => true
  end.

(** The collection handle can be obtained: it is open already, or opening
    it succeeds. *)
Definition collection_available (w : World float) : Prop :=
  collection_loaded w = true \/ chroma_open env = true.

(** The chains invoked within a run of events, in order. *)
Fixpoint chain_calls (events : list (Event float)) : list (ChainCall float) :=
  match events with
  | [] => []
  | LlmInvoke call :: rest => call :: chain_calls rest
  | _ :: rest => chain_calls rest
  end.

End MoreVocabulary.

(** A parsed JSON value that is an object (a Python [dict]). *)
Definition is_object {float : Type} (j : Json float) : bool :=
  match j with
  | JObj _ => true
  | _ => false
  end.

(** main.py, [run_chat]: the test that guards the two
    [conversation_history.append] calls after a turn. *)
Definition history_updated {float : Type} (final_state : AgentState float) : bool :=
  negb (PyStr.truthy (error final_state))
  || negb (PyStr.contains "Failed to generate response"
             (PyStr.or_empty (error final_state))).

(* ------------------------------------------------------------------ *)
(** * Sample data for the worked examples *)

Definition sample_history : list Turn :=
  [mkTurn "user" "i am tired";
   mkTurn "ai" "what happened?";
   mkTurn "USER" "long day"].

(** Collaborators for the worked examples: floats are integers, the
    tokenizer counts characters, the encoder and the collection always
    answer; the chat model and the JSON parser are supplied per example. *)
Definition sample_env (llm : ChainCall Z -> option string)
    (loads : string -> option (Json Z)) : Env Z :=
  mkEnv String.length llm loads
    (fun _ => "{}") (fun _ => "[]")
    (Z.eqb 0) Z.ltb (fun _ => "0.50")
    true (fun text => Some [Z.of_nat (String.length text)])
    true (fun _ _ => true)
    (fun rows _ _ _ =>
       Some (mkQueryResult [map sm_document rows] [map sm_metadata rows]
               [map (fun _ => 0%Z) rows]))
    (fun _ => "2025-01-01T00:00:00+00:00")
    (fun n => match n with O => "id-0" | S O => "id-1" | _ => "id-n" end).

Definition sample_analysis : Json Z :=
  JObj [("dominant_emotion", JStr "sadness"); ("emotion_intensity", JInt 7);
        ("key_topics", JArr [JStr "work"]); ("implicit_needs", JArr []);
        ("sentiment", JStr "negative")].

(** A chat model that is down. *)
Definition llm_down : ChainCall Z -> option string := fun _ => None.

(** A chat model that answers every chain except the risk assessment. *)
Definition llm_without_risk_check : ChainCall Z -> option string :=
  fun call =>
    match call with
    | EthicalRiskAssessment _ _ => None
    | _ => Some "ok"
    end.

(** A chat model that answers every chain; the risk assessment says NO. *)
Definition llm_up : ChainCall Z -> option string :=
  fun call =>
    match call with
    | EthicalRiskAssessment _ _ => Some "NO"
    | _ => Some "ok"
    end.

Definition loads_sample : string -> option (Json Z) :=
  fun _ => Some sample_analysis.

(** A chat model whose risk assessment answers [answer]. *)
Definition llm_assessing (answer : string) : ChainCall Z -> option string :=
  fun call =>
    match call with
    | EthicalRiskAssessment _ _ => Some answer
    | _ => Some "ok"
    end.

(** A chat model that answers every chain except the response generation. *)
Definition llm_without_generation : ChainCall Z -> option string :=
  fun call =>
    match call with
    | EthicalRiskAssessment _ _ => Some "NO"
    | ResponseGeneration _ _ _ _ => None
    | _ => Some "ok"
    end.

(** The sample collaborators with an encoder that cannot be loaded. *)
Definition sample_env_no_encoder (llm : ChainCall Z -> option string)
    (loads : string -> option (Json Z)) : Env Z :=
  let e := sample_env llm loads in
  mkEnv (count_tokens e) (chain_invoke e) (json_loads e) (json_dumps e)
    (py_str e) (float_is_zero e) (float_lt e) (relevance_2f e)
    false (model_encode e) (chroma_open e) (collection_add e)
    (collection_query e) (utcnow_isoformat e) (uuid4 e).

(** A JSON parser that reads every answer as the array [[1]]. *)
Definition loads_array : string -> option (Json Z) :=
  fun _ => Some (JArr [JInt 1]).


(** A chat model that answers every chain except the query generation. *)
Definition llm_without_query : ChainCall Z -> option string :=
  fun call =>
    match call with
    | EthicalRiskAssessment _ _ => Some "NO"
    | MemoryRetrievalQuery _ _ _ _ => None
    | _ => Some "ok"
    end.

(** The state of a turn after a successful analysis. *)
Definition analysed_state : AgentState Z :=
  set_input_analysis (current_state "s" "hello" []) (Some sample_analysis).

Definition sample_fields : list (string * Json Z) :=
  [("dominant_emotion", JStr "sadness"); ("emotion_intensity", JInt 7);
   ("key_topics", JArr [JStr "work"]); ("implicit_needs", JArr []);
   ("sentiment", JStr "negative")].

Definition far_record : MemoryRecord Z := mkMemoryRecord "far" [] 9%Z.
Definition near_record : MemoryRecord Z := mkMemoryRecord "near" [] 2%Z.

(* ================================================================== *)
(** * Basic facts about strings *)

Lemma append_empty_r (s : string) : (s ++ EmptyString)%string = s.
Proof. induction s as [|c s IH]; simpl; [reflexivity | now rewrite IH]. Qed.

Lemma append_assoc (a b c : string) :
  ((a ++ b) ++ c)%string = (a ++ (b ++ c))%string.
Proof. induction a as [|x a IH]; simpl; [reflexivity | now rewrite IH]. Qed.

Example capitalize_role : PyStr.capitalize "uSER" = "User".
Proof. reflexivity. Qed.

Example strip_fenced_json :
  cleaned_analysis ("  ```json" ++ PyStr.nl ++ "{}" ++ PyStr.nl ++ "```  ")
  = "{}".
Proof. reflexivity. Qed.

Example strip_upper_yes : PyStr.upper (PyStr.strip (" yes" ++ PyStr.nl)) = "YES".
Proof. reflexivity. Qed.

Example keyword_check_is_case_insensitive :
  simple_keyword_check "I feel HOPELESS and can't go on" POTENTIAL_RISK_KEYWORDS
  = true.
Proof. reflexivity. Qed.

Example keyword_check_negative :
  simple_keyword_check "had a rough day at work" POTENTIAL_RISK_KEYWORDS = false.
Proof. reflexivity. Qed.

Lemma rstrip_keeps_nonspace (c : ascii) (rest : string) :
  PyStr.is_space c = false ->
  PyStr.rstrip (String c rest) <> EmptyString.
Proof.
  intros Hc. simpl. destruct (PyStr.rstrip rest); [rewrite Hc|]; discriminate.
Qed.

(** A text that starts with a non-blank character is not blank. *)
Lemma strip_not_blank (c : ascii) (rest : string) :
  PyStr.is_space c = false ->
  String.eqb (PyStr.strip (String c rest)) EmptyString = false.
Proof.
  intros Hc. apply String.eqb_neq. unfold PyStr.strip.
  cbn [PyStr.lstrip]. rewrite Hc. now apply rstrip_keeps_nonspace.
Qed.

Lemma prefix_append (a b : string) : String.prefix a (a ++ b)%string = true.
Proof.
  induction a as [|x a IH]; simpl; [now destruct b|].
  destruct (ascii_dec x x); [exact IH | contradiction].
Qed.

Lemma contains_of_prefix (sub s : string) :
  String.prefix sub s = true -> PyStr.contains sub s = true.
Proof. intros H. destruct s; cbn [PyStr.contains]; rewrite H; reflexivity. Qed.

(** Both parts of a concatenation occur in it. *)
Lemma contains_append_l (a b : string) : PyStr.contains a (a ++ b)%string = true.
Proof. apply contains_of_prefix, prefix_append. Qed.

Lemma contains_append_r (a b : string) : PyStr.contains b (a ++ b)%string = true.
Proof.
  induction a as [|x a IH]; cbn [append].
  - apply contains_of_prefix.
    pose proof (prefix_append b EmptyString) as H.
    now rewrite append_empty_r in H.
  - cbn [PyStr.contains]. rewrite IH. apply orb_true_r.
Qed.

Lemma or_empty_some (s : string) : PyStr.or_empty (Some s) = s.
Proof.
  unfold PyStr.or_empty. destruct (String.eqb_spec s EmptyString); congruence.
Qed.

(* ================================================================== *)
(** * Properties of the history formatter *)

Section HistoryFacts.

Variable count_tokens : string -> nat.

Lemma turn_tokens_nonneg (t : Turn) : (0 <= turn_tokens count_tokens t)%Z.
Proof. unfold turn_tokens. lia. Qed.

Lemma total_tokens_nonneg (turns : list Turn) : (0 <= total_tokens count_tokens turns)%Z.
Proof.
  induction turns as [|t turns IH]; simpl; [lia|].
  pose proof (turn_tokens_nonneg t). lia.
Qed.

Lemma total_tokens_app (xs ys : list Turn) :
  total_tokens count_tokens (xs ++ ys) = (total_tokens count_tokens xs + total_tokens count_tokens ys)%Z.
Proof. induction xs as [|x xs IH]; simpl; [reflexivity | rewrite IH; lia]. Qed.

Lemma total_tokens_rev (xs : list Turn) :
  total_tokens count_tokens (rev xs) = total_tokens count_tokens xs.
Proof.
  induction xs as [|x xs IH]; simpl; [reflexivity|].
  rewrite total_tokens_app, IH. simpl. lia.
Qed.

(** The accumulator loop appends the rendering of what [taken] selects. *)
Lemma history_loop_taken (turns : list Turn) :
  forall (acc : list string) (cur b : Z),
    history_loop count_tokens turns acc cur b
    = acc ++ map turn_text (taken count_tokens turns cur b).
Proof.
  induction turns as [|t turns IH]; intros acc cur b; simpl.
  - now rewrite app_nil_r.
  - unfold turn_tokens.
    destruct (cur + Z.of_nat (count_tokens (turn_text t)) <=? b)%Z.
    + rewrite IH, <- app_assoc. reflexivity.
    + simpl. now rewrite app_nil_r.
Qed.

(** [taken] is a prefix, and what follows it did not fit. *)
Lemma taken_split (turns : list Turn) :
  forall cur b,
    exists rest,
      turns = taken count_tokens turns cur b ++ rest
      /\ (rest = []
          \/ exists t rest', rest = t :: rest'
               /\ (b < cur + total_tokens count_tokens (taken count_tokens turns cur b) + turn_tokens count_tokens t)%Z).
Proof.
  induction turns as [|t turns IH]; intros cur b; simpl.
  - exists []. split; [reflexivity | now left].
  - destruct (cur + turn_tokens count_tokens t <=? b)%Z eqn:Hfit.
    + destruct (IH (cur + turn_tokens count_tokens t)%Z b) as (rest & Hsplit & Hstop).
      exists rest. split.
      * simpl. now rewrite <- Hsplit.
      * destruct Hstop as [-> | (u & rest' & -> & Hover)]; [now left|].
        right. exists u, rest'. split; [reflexivity|]. simpl. lia.
    + exists (t :: turns). split; [reflexivity|].
      right. exists t, turns. split; [reflexivity|].
      apply Z.leb_gt in Hfit. simpl. lia.
Qed.

(** Every running total met while taking stays within the budget. *)
Lemma taken_running_total (turns : list Turn) :
  forall cur b front back,
    taken count_tokens turns cur b = front ++ back ->
    (cur <= b)%Z ->
    (cur + total_tokens count_tokens front <= b)%Z.
Proof.
  induction turns as [|t turns IH]; intros cur b front back Heq Hcur; simpl in Heq.
  - destruct front; [simpl; lia | discriminate].
  - destruct (cur + turn_tokens count_tokens t <=? b)%Z eqn:Hfit.
    + destruct front as [|f front]; [simpl; lia|].
      simpl in Heq. injection Heq as <- Heq.
      apply Z.leb_le in Hfit.
      specialize (IH _ _ _ _ Heq Hfit). simpl. lia.
    + destruct front; [simpl; lia | discriminate].
Qed.

(** A larger budget takes at least the same turns. *)
Lemma taken_mono (turns : list Turn) :
  forall cur b1 b2,
    (b1 <= b2)%Z ->
    exists extra, taken count_tokens turns cur b2 = taken count_tokens turns cur b1 ++ extra.
Proof.
  induction turns as [|t turns IH]; intros cur b1 b2 Hle; simpl.
  - now exists [].
  - destruct (cur + turn_tokens count_tokens t <=? b1)%Z eqn:H1.
    + apply Z.leb_le in H1.
      assert (H2 : (cur + turn_tokens count_tokens t <=? b2)%Z = true) by (apply Z.leb_le; lia).
      rewrite H2.
      destruct (IH (cur + turn_tokens count_tokens t)%Z b1 b2 Hle) as (extra & ->).
      now exists extra.
    + simpl. eexists. reflexivity.
Qed.

Lemma included_turns_taken (history : list Turn) (b : Z) :
  included_turns count_tokens history b
  = map turn_text (rev (taken count_tokens (rev history) 0 b)).
Proof.
  unfold included_turns. rewrite history_loop_taken. simpl.
  now rewrite map_rev.
Qed.

(** A rendered turn is never the empty string: it contains [": "]. *)
Lemma turn_text_nonempty (t : Turn) : turn_text t <> EmptyString.
Proof.
  unfold turn_text. destruct (PyStr.capitalize (role t)); simpl; discriminate.
Qed.

Lemma taken_zero_budget (turns : list Turn) :
  (forall s, count_tokens s = 0 -> s = EmptyString) ->
  taken count_tokens turns 0 0 = [].
Proof.
  intros Hpos. destruct turns as [|t turns]; simpl; [reflexivity|].
  destruct (turn_tokens count_tokens t <=? 0)%Z eqn:Hfit; [|reflexivity].
  apply Z.leb_le in Hfit. unfold turn_tokens in Hfit.
  assert (Hz : count_tokens (turn_text t) = 0) by lia.
  apply Hpos in Hz. now apply turn_text_nonempty in Hz.
Qed.

(** Joining a concatenation: the join of the tail is a suffix. *)
Lemma join_app_suffix (sep : string) (xs ys : list string) :
  exists front, PyStr.join sep (xs ++ ys) = (front ++ PyStr.join sep ys)%string.
Proof.
  unfold PyStr.join.
  induction xs as [|x xs IH].
  - now exists EmptyString.
  - destruct IH as (front & IH). simpl.
    destruct (xs ++ ys) as [|z zs] eqn:Hz.
    + apply app_eq_nil in Hz. destruct Hz as [_ ->]. simpl.
      exists x. now rewrite append_empty_r.
    + rewrite IH. exists (x ++ sep ++ front)%string.
      now rewrite !append_assoc.
Qed.

End HistoryFacts.

(** C6.  For every history and every non-negative budget,
    [format_conversation_history] keeps a block [kept] of the most recent
    turns of the history ([history = older ++ kept]), rendered as
    ["{Role}: {content}"] and joined by line feeds in chronological order;
    every running total, counted from the most recent turn backwards, is at
    most the budget; and the walk stops for good at the first turn that does
    not fit: the turn just before [kept], when there is one, would push the
    total over the budget, whatever the turns before it cost.  An empty
    history gives the empty string, and so does a budget of 0 for a
    tokenizer that finds at least one token in every non-empty text. *)
Theorem format_conversation_history_window
    (count_tokens : string -> nat) (history : list Turn) (max_tokens : Z)
    (Hbudget : (0 <= max_tokens)%Z) :
  (exists older kept,
      history = older ++ kept
      /\ included_turns count_tokens history max_tokens = map turn_text kept
      /\ format_conversation_history count_tokens history max_tokens
         = PyStr.join PyStr.nl
             (map (fun t => (PyStr.capitalize (role t) ++ ": " ++ content t)%string)
                  kept)
      /\ (forall earlier recent,
             kept = earlier ++ recent ->
             (total_tokens count_tokens recent <= max_tokens)%Z)
      /\ (older = []
          \/ exists older' t,
               older = older' ++ [t]
               /\ (max_tokens
                   < turn_tokens count_tokens t + total_tokens count_tokens kept)%Z))
  /\ format_conversation_history count_tokens [] max_tokens = EmptyString
  /\ ((forall s, count_tokens s = 0 -> s = EmptyString) ->
      format_conversation_history count_tokens history 0 = EmptyString).
Proof.
  split; [|split].
  - destruct (taken_split count_tokens (rev history) 0 max_tokens)
      as (rest & Hsplit & Hstop).
    exists (rev rest), (rev (taken count_tokens (rev history) 0 max_tokens)).
    assert (Hinc := included_turns_taken count_tokens history max_tokens).
    repeat split.
    + rewrite <- rev_app_distr, <- Hsplit. now rewrite rev_involutive.
    + exact Hinc.
    + unfold format_conversation_history. now rewrite Hinc.
    + intros earlier recent Heq.
      apply (f_equal (@rev Turn)) in Heq.
      rewrite rev_involutive, rev_app_distr in Heq.
      pose proof (taken_running_total count_tokens _ _ _ _ _ Heq Hbudget) as Hrun.
      rewrite total_tokens_rev in Hrun. lia.
    + destruct Hstop as [-> | (t & rest' & -> & Hover)]; [now left|].
      right. exists (rev rest'), t. split; [reflexivity|].
      rewrite total_tokens_rev. lia.
  - reflexivity.
  - intros Hpos. unfold format_conversation_history.
    rewrite included_turns_taken, taken_zero_budget by exact Hpos.
    reflexivity.
Qed.

(** C7.  For every history and budgets [b1 < b2], the turns included under
    [b1] are a chronological suffix of the turns included under [b2]: the
    history splits as [older ++ added ++ kept] where [kept] is what [b1]
    includes and [added ++ kept] is what [b2] includes, so the larger budget
    drops nothing and only adds older turns; the same holds for the
    formatted text. *)
Theorem format_conversation_history_budget_monotone
    (count_tokens : string -> nat) (history : list Turn) (b1 b2 : Z)
    (Hlt : (b1 < b2)%Z) :
  exists older added kept,
    history = older ++ added ++ kept
    /\ included_turns count_tokens history b1 = map turn_text kept
    /\ included_turns count_tokens history b2 = map turn_text (added ++ kept)
    /\ exists front,
         format_conversation_history count_tokens history b2
         = (front ++ format_conversation_history count_tokens history b1)%string.
Proof.
  assert (Hle : (b1 <= b2)%Z) by lia.
  destruct (taken_mono count_tokens (rev history) 0 b1 b2 Hle) as (extra & Hext).
  destruct (taken_split count_tokens (rev history) 0 b2) as (rest & Hsplit & _).
  exists (rev rest), (rev extra), (rev (taken count_tokens (rev history) 0 b1)).
  assert (H2 : included_turns count_tokens history b2
               = map turn_text
                   (rev extra ++ rev (taken count_tokens (rev history) 0 b1))).
  { rewrite included_turns_taken, Hext, rev_app_distr. reflexivity. }
  repeat split.
  - rewrite <- rev_app_distr, <- Hext, <- rev_app_distr, <- Hsplit.
    now rewrite rev_involutive.
  - apply included_turns_taken.
  - exact H2.
  - unfold format_conversation_history.
    rewrite H2, map_app, <- included_turns_taken.
    apply join_app_suffix.
Qed.

Lemma length_zero_empty (s : string) : String.length s = 0 -> s = EmptyString.
Proof. destruct s; [reflexivity | discriminate]. Qed.

Lemma format_conversation_history_window_witness :
  (0 <= 35)%Z
  /\ (forall s, String.length s = 0 -> s = EmptyString)
  /\ (exists older kept,
        sample_history = older ++ kept
        /\ included_turns String.length sample_history 35 = map turn_text kept
        /\ (older = []
            \/ exists older' t,
                 older = older' ++ [t]
                 /\ (35 < turn_tokens String.length t
                          + total_tokens String.length kept)%Z))
  /\ format_conversation_history String.length [] 35 = EmptyString
  /\ format_conversation_history String.length sample_history 0 = EmptyString.
Proof.
  split; [lia|]. split; [exact length_zero_empty|].
  pose proof (format_conversation_history_window String.length sample_history 35
                ltac:(lia))
    as ((older & kept & Hsplit & Hinc & _ & _ & Hstop) & Hempty & Hzero).
  split; [now exists older, kept|].
  split; [exact Hempty | exact (Hzero length_zero_empty)].
Defined.

Lemma format_conversation_history_budget_monotone_witness :
  (10 < 35)%Z
  /\ exists older added kept,
       sample_history = older ++ added ++ kept
       /\ included_turns String.length sample_history 10 = map turn_text kept
       /\ included_turns String.length sample_history 35
          = map turn_text (added ++ kept)
       /\ exists front,
            format_conversation_history String.length sample_history 35
            = (front ++ format_conversation_history String.length sample_history 10)%string.
Proof.
  split; [lia|].
  apply (format_conversation_history_budget_monotone String.length sample_history 10 35).
  lia.
Defined.

Example format_sample_35 :
  format_conversation_history String.length sample_history 35
  = ("Ai: what happened?" ++ PyStr.nl ++ "User: long day")%string.
Proof. reflexivity. Qed.

Example format_sample_hard_stop :
  format_conversation_history String.length
    [mkTurn "user" "ok"; mkTurn "ai" "a much longer reply that does not fit";
     mkTurn "user" "hm"] 20
  = "User: hm".
Proof. reflexivity. Qed.

(* ================================================================== *)
(** * Properties of the memory gateway *)

Section MemoryFacts.

Context {float : Type}.
Variable env : Env float.

Lemma get_embedding_returns (text : string) (w : World float) :
  encoder_available env w ->
  exists w' events,
    get_embedding env text w = (Returned (embedding_of env text), w')
    /\ extends w w' events
    /\ Forall (fun ev => ev = ModelLoad \/ ev = Encode text) events
    /\ collection w' = collection w
    /\ model_loaded w' = true
    /\ collection_loaded w' = collection_loaded w
    /\ clock_reads w' = clock_reads w
    /\ uuids_drawn w' = uuids_drawn w.
Proof.
  intros Havail.
  unfold get_embedding, embedding_of, get_embedding_model, bind, try_except,
    emit, ret, raise, extends.
  destruct (model_loaded w) eqn:Hloaded.
  - destruct (String.eqb (PyStr.strip text) EmptyString).
    + exists w, []. simpl. rewrite app_nil_r. now repeat split.
    + simpl. destruct (model_encode env text); simpl;
        eexists; exists [Encode text]; repeat split; auto.
  - destruct Havail as [Habs | Hload]; [congruence|]. rewrite Hload.
    destruct (String.eqb (PyStr.strip text) EmptyString).
    + eexists; exists [ModelLoad]. repeat split; auto.
    + simpl. destruct (model_encode env text); simpl;
        eexists; exists [ModelLoad; Encode text]; simpl;
        rewrite <- app_assoc; repeat split; auto.
Qed.

(** Loading the encoder and encoding a text are not store calls. *)
Lemma encoder_events_no_store (text : string) (events : list (Event float)) :
  Forall (fun ev => ev = ModelLoad \/ ev = Encode text) events ->
  added_rows events = [] /\ forallb (@unfiltered float) events = true.
Proof.
  induction 1 as [|ev events [-> | ->] _ [IHa IHu]]; simpl; auto.
Qed.

Lemma added_rows_app (xs ys : list (Event float)) :
  added_rows (xs ++ ys) = added_rows xs ++ added_rows ys.
Proof.
  induction xs as [|x xs IH]; simpl; [reflexivity|].
  destruct x; simpl; now rewrite IH.
Qed.

Lemma add_memory_returns (e : list float) (doc : string) (meta : Metadata)
    (w : World float) :
  collection_loaded w = true ->
  let row := mkStoredMemory (uuid4 env (uuids_drawn w)) e doc meta in
  exists w',
    add_memory env (Some e) doc meta w = (Returned tt, w')
    /\ extends w w' [CollectionAdd row]
    /\ collection w' = apply_adds env (collection w) [row]
    /\ model_loaded w' = model_loaded w
    /\ collection_loaded w' = true
    /\ clock_reads w' = clock_reads w
    /\ uuids_drawn w' = S (uuids_drawn w).
Proof.
  intros Hcoll row.
  unfold extends, apply_adds.
  cbv [add_memory get_chroma_collection bind fresh_uuid try_except
       collection_add_call emit ret raise].
  rewrite Hcoll. cbn [collection trace fold_left]. fold row.
  destruct (collection_add env (collection w) row);
    eexists; repeat split; simpl; auto.
Qed.

Lemma added_rows_adds (rows : list (StoredMemory float)) :
  added_rows (map (@CollectionAdd float) rows) = rows.
Proof. induction rows as [|r rows IH]; simpl; [reflexivity | now rewrite IH]. Qed.

Lemma unfiltered_adds (rows : list (StoredMemory float)) :
  forallb (@unfiltered float) (map (@CollectionAdd float) rows) = true.
Proof. induction rows as [|r rows IH]; simpl; [reflexivity | exact IH]. Qed.

Lemma apply_adds_app (rows xs ys : list (StoredMemory float)) :
  apply_adds env rows (xs ++ ys) = apply_adds env (apply_adds env rows xs) ys.
Proof. unfold apply_adds. apply fold_left_app. Qed.

(** One side of [add_interaction]: the [if ..._embedding:] statement. *)
Lemma side_returns (embedding : option (list float)) (doc : string)
    (meta : Metadata) (w : World float) :
  collection_loaded w = true ->
  let rows := side_rows embedding (uuid4 env (uuids_drawn w)) doc meta in
  exists w',
    (if embedding_truthy embedding
     then add_memory env embedding doc meta
     else ret tt) w = (Returned tt, w')
    /\ extends w w' (map (@CollectionAdd float) rows)
    /\ collection w' = apply_adds env (collection w) rows
    /\ model_loaded w' = model_loaded w
    /\ collection_loaded w' = true
    /\ clock_reads w' = clock_reads w
    /\ uuids_drawn w' = uuids_drawn w + length rows.
Proof.
  intros Hcoll rows. subst rows. unfold side_rows.
  destruct embedding as [[|x e]|]; cbn [embedding_truthy].
  - exists w. unfold extends, ret. simpl. rewrite app_nil_r.
    repeat split; auto.
  - destruct (add_memory_returns (x :: e) doc meta w Hcoll)
      as (w' & Hrun & Hext & Hc & Hm & Hl & Hk & Hu).
    exists w'. simpl. rewrite Hu. repeat split; auto. lia.
  - exists w. unfold extends, ret. simpl. rewrite app_nil_r.
    repeat split; auto.
Qed.

(** [add_interaction] with both handles at hand: it returns, and the rows
    it hands to the store are the user row followed by the AI row, each
    present exactly when its own embedding is a non-empty vector. *)
Lemma add_interaction_returns (user_text ai_text session : string)
    (w : World float) :
  collection_loaded w = true ->
  encoder_available env w ->
  let timestamp := utcnow_isoformat env (clock_reads w) in
  let user_doc := ("User said: " ++ user_text)%string in
  let ai_doc := ("AI responded: " ++ ai_text)%string in
  let user_rows :=
    side_rows (embedding_of env user_doc) (uuid4 env (uuids_drawn w)) user_doc
      (interaction_metadata "user" timestamp session) in
  let ai_rows :=
    side_rows (embedding_of env ai_doc)
      (uuid4 env (uuids_drawn w + length user_rows)) ai_doc
      (interaction_metadata "ai" timestamp session) in
  exists w' events,
    add_interaction env user_text ai_text session w = (Returned tt, w')
    /\ extends w w' events
    /\ added_rows events = user_rows ++ ai_rows
    /\ forallb (@unfiltered float) events = true
    /\ collection w' = apply_adds env (collection w) (user_rows ++ ai_rows).
Proof.
  intros Hcoll Henc timestamp user_doc ai_doc user_rows ai_rows.
  unfold add_interaction, utc_timestamp. unfold bind at 1. cbv beta iota.
  fold timestamp. fold user_doc.
  set (w1 := mkWorld (trace w) (collection w) (model_loaded w)
               (collection_loaded w) (S (clock_reads w)) (uuids_drawn w)).
  destruct (get_embedding_returns user_doc w1 Henc)
    as (w2 & ev2 & Hrun2 & Hext2 & Hev2 & Hc2 & Hm2 & Hl2 & Hk2 & Hu2).
  destruct (encoder_events_no_store _ _ Hev2) as [Hrows2 Hunf2].
  unfold bind at 1. rewrite Hrun2.
  assert (Hl2' : collection_loaded w2 = true) by (rewrite Hl2; exact Hcoll).
  destruct (side_returns (embedding_of env user_doc) user_doc
              (interaction_metadata "user" timestamp session) w2 Hl2')
    as (w3 & Hrun3 & Hext3 & Hc3 & Hm3 & Hl3 & Hk3 & Hu3).
  unfold bind at 1. rewrite Hrun3. fold ai_doc.
  assert (Henc3 : encoder_available env w3) by (left; now rewrite Hm3).
  destruct (get_embedding_returns ai_doc w3 Henc3)
    as (w4 & ev4 & Hrun4 & Hext4 & Hev4 & Hc4 & Hm4 & Hl4 & Hk4 & Hu4).
  destruct (encoder_events_no_store _ _ Hev4) as [Hrows4 Hunf4].
  unfold bind at 1. rewrite Hrun4.
  assert (Hl4' : collection_loaded w4 = true) by (rewrite Hl4; exact Hl3).
  destruct (side_returns (embedding_of env ai_doc) ai_doc
              (interaction_metadata "ai" timestamp session) w4 Hl4')
    as (w5 & Hrun5 & Hext5 & Hc5 & Hm5 & Hl5 & Hk5 & Hu5).
  rewrite Hrun5.
  assert (Hid2 : uuids_drawn w2 = uuids_drawn w) by (rewrite Hu2; reflexivity).
  assert (Hid4 : uuids_drawn w4 = uuids_drawn w + length user_rows).
  { rewrite Hu4, Hu3, Hid2. reflexivity. }
  rewrite Hid2 in Hext3, Hc3. rewrite Hid4 in Hext5, Hc5.
  fold user_rows in Hext3, Hc3. fold ai_rows in Hext5, Hc5.
  exists w5,
    (ev2 ++ map (@CollectionAdd float) user_rows
     ++ ev4 ++ map (@CollectionAdd float) ai_rows).
  unfold extends in *. repeat split.
  - rewrite Hext5, Hext4, Hext3, Hext2. simpl. now rewrite <- !app_assoc.
  - rewrite !added_rows_app, !added_rows_adds, Hrows2, Hrows4. reflexivity.
  - rewrite !forallb_app, Hunf2, Hunf4, !unfiltered_adds. reflexivity.
  - rewrite Hc5, Hc4, Hc3, Hc2, apply_adds_app. reflexivity.
Qed.

Lemma get_embedding_trace (text : string) (w : World float) :
  exists events,
    extends w (snd (get_embedding env text w)) events
    /\ forallb (@unfiltered float) events = true.
Proof.
  unfold extends.
  cbv [get_embedding get_embedding_model bind try_except emit ret raise].
  destruct (model_loaded w).
  - destruct (String.eqb (PyStr.strip text) EmptyString).
    + exists []. split; [symmetry; apply app_nil_r | reflexivity].
    + destruct (model_encode env text); exists [Encode text]; now split.
  - destruct (sentence_transformer env).
    + destruct (String.eqb (PyStr.strip text) EmptyString).
      * exists [ModelLoad]. now split.
      * destruct (model_encode env text); exists [ModelLoad; Encode text];
          cbn [snd trace]; rewrite <- app_assoc; now split.
    + exists [ModelLoad]. now split.
Qed.

Lemma query_memories_trace (e : list float) (n : Z) (w : World float) :
  exists events,
    extends w (snd (query_memories env (Some e) n None w)) events
    /\ forallb (@unfiltered float) events = true.
Proof.
  unfold extends.
  cbv [query_memories get_chroma_collection bind try_except emit ret raise].
  destruct (collection_loaded w).
  - cbn [collection trace].
    destruct (collection_query env (collection w) e n None);
      exists [CollectionQuery e n None]; now split.
  - destruct (chroma_open env).
    + cbn [collection trace].
      destruct (collection_query env (collection w) e n None);
        exists [ChromaOpen; CollectionQuery e n None];
        cbn [snd trace]; rewrite <- app_assoc; now split.
    + exists [ChromaOpen]. now split.
Qed.

(** Whatever happens, retrieval issues no filtered store query. *)
Lemma retrieve_trace_unfiltered (query_text session : string) (n : Z)
    (w : World float) :
  exists events,
    extends w (snd (retrieve_relevant_memories env query_text session n w)) events
    /\ forallb (@unfiltered float) events = true.
Proof.
  destruct (get_embedding_trace query_text w) as (ev1 & Hext1 & Hunf1).
  unfold retrieve_relevant_memories, bind at 1.
  destruct (get_embedding env query_text w) as [[[e|]|exn] w1];
    cbn [snd] in Hext1; try (exists ev1; now split).
  destruct (query_memories_trace e n w1) as (ev2 & Hext2 & Hunf2).
  exists (ev1 ++ ev2). split.
  - unfold extends in *. rewrite app_assoc, <- Hext1, <- Hext2.
    f_equal. unfold try_except, bind.
    destruct (query_memories env (Some e) n None w1) as [[results|exn] w2];
      cbn [snd]; [|reflexivity].
    unfold first_item, ret, raise.
    destruct (documents results); [reflexivity|].
    destruct (metadatas results); [reflexivity|].
    destruct (distances results); reflexivity.
  - now rewrite forallb_app, Hunf1, Hunf2.
Qed.

End MemoryFacts.

(** C8, amended.  When the encoder handle is at hand (loaded, or loadable)
    and the query text is blank or the encoder fails on it, [get_embedding]
    returns [None], [retrieve_relevant_memories] returns the empty list
    instead of raising, and the retrieval block of [retrieve_memory_node]
    stores that empty list and leaves [error] as it was; the collection is
    neither queried nor changed. *)
Theorem retrieve_relevant_memories_graceful_empty {float : Type}
    (env : Env float) (query_text : string) (w : World float)
    (Hencoder : encoder_available env w)
    (Hfails : PyStr.strip query_text = EmptyString
              \/ model_encode env query_text = None) :
  exists w' events,
    get_embedding env query_text w = (Returned None, w')
    /\ (forall session n_results,
          retrieve_relevant_memories env query_text session n_results w
          = (Returned [], w'))
    /\ (forall state,
          exists state',
            perform_retrieval env state query_text w = (Returned state', w')
            /\ retrieved_memories state' = Some []
            /\ error state' = error state)
    /\ extends w w' events
    /\ Forall (fun ev => ev = ModelLoad \/ ev = Encode query_text) events
    /\ collection w' = collection w.
Proof.
  destruct (get_embedding_returns env query_text w Hencoder)
    as (w' & events & Hrun & Hext & Hev & Hc & _).
  assert (Hnone : embedding_of env query_text = None).
  { unfold embedding_of. destruct Hfails as [-> | Hfail]; [reflexivity|].
    now destruct (String.eqb (PyStr.strip query_text) EmptyString). }
  rewrite Hnone in Hrun.
  assert (Hretr : forall session n_results,
             retrieve_relevant_memories env query_text session n_results w
             = (Returned [], w')).
  { intros. unfold retrieve_relevant_memories, bind. now rewrite Hrun. }
  exists w', events. repeat split; auto.
  intros state. eexists. unfold perform_retrieval, try_except, bind.
  rewrite Hretr. repeat split.
Qed.

Lemma retrieve_relevant_memories_graceful_empty_witness :
  let env := sample_env llm_up loads_sample in
  let w : World Z := started_world [] in
  encoder_available env w
  /\ (PyStr.strip "   " = EmptyString \/ model_encode env "   " = None)
  /\ exists w' events,
       get_embedding env "   " w = (Returned None, w')
       /\ (forall session n_results,
             retrieve_relevant_memories env "   " session n_results w
             = (Returned [], w'))
       /\ (forall state,
             exists state',
               perform_retrieval env state "   " w = (Returned state', w')
               /\ retrieved_memories state' = Some []
               /\ error state' = error state)
       /\ extends w w' events
       /\ Forall (fun ev => ev = ModelLoad \/ ev = Encode "   ") events
       /\ collection w' = collection w.
Proof.
  intros env w.
  assert (Hencoder : encoder_available env w) by (right; reflexivity).
  assert (Hblank : PyStr.strip "   " = EmptyString
                   \/ model_encode env "   " = None) by (left; reflexivity).
  split; [exact Hencoder|]. split; [exact Hblank|].
  exact (retrieve_relevant_memories_graceful_empty env "   " w Hencoder Hblank).
Defined.

(** C8, counterexample.  The encoder cannot be loaded and the query is
    blank: the embedding backend fails, [retrieve_relevant_memories] raises
    instead of returning the empty list, and the retrieval block of
    [retrieve_memory_node] sets [error]. *)
Lemma retrieval_raises_when_encoder_cannot_load :
  let env := sample_env_no_encoder llm_up loads_sample in
  let w : World Z := started_world [] in
  PyStr.strip "   " = EmptyString
  /\ (exists w',
        retrieve_relevant_memories env "   " "s" 5 w = (Raised BackendError, w'))
  /\ (exists state' w',
        perform_retrieval env analysed_state "   " w = (Returned state', w')
        /\ error analysed_state = None
        /\ error state' = Some "Failed to retrieve memories.").
Proof.
  intros env w. split; [reflexivity|].
  split; [eexists | do 2 eexists; repeat split]; reflexivity.
Qed.

(** C10.  [retrieve_relevant_memories] gives the same result and leaves the
    same world for any two session identifiers, and every store query it
    issues carries no [where] filter. *)
Theorem retrieve_relevant_memories_ignores_session {float : Type}
    (env : Env float) (query_text s1 s2 : string) (n_results : Z)
    (w : World float) :
  retrieve_relevant_memories env query_text s1 n_results w
  = retrieve_relevant_memories env query_text s2 n_results w
  /\ exists events,
       extends w (snd (retrieve_relevant_memories env query_text s1 n_results w))
         events
       /\ forallb unfiltered events = true.
Proof.
  split; [reflexivity|]. apply retrieve_trace_unfiltered.
Qed.

(** A store holding rows of two sessions: the query of session [s2] gets the
    rows written by session [s1]. *)
Example retrieval_crosses_sessions :
  let env := sample_env llm_up loads_sample in
  let row := mkStoredMemory "id-0" [3%Z] "User said: hi"
               (interaction_metadata "user" "t" "s1") in
  fst (retrieve_relevant_memories env "hello" "s2" 5
         (started_world [row]))
  = Returned [mkMemoryRecord "User said: hi"
                (interaction_metadata "user" "t" "s1") 0%Z].
Proof. reflexivity. Qed.

(* ================================================================== *)
(** * Properties of the graph nodes *)

Section NodeFacts.

Context {float : Type}.
Variable env : Env float.

(** [invoke_chain] returns exactly when the chain answers. *)
Lemma invoke_chain_run (call : ChainCall float) (w : World float) :
  invoke_chain env call w
  = (match chain_invoke env call with
     | Some text => Returned text
     | None => Raised BackendError
     end,
     mkWorld (trace w ++ [LlmInvoke call]) (collection w) (model_loaded w)
       (collection_loaded w) (clock_reads w) (uuids_drawn w)).
Proof.
  unfold invoke_chain, bind, emit, ret, raise.
  now destruct (chain_invoke env call).
Qed.

(** The safety stage, once entered without an error. *)
Lemma ethical_check_node_run (state : AgentState float) (w : World float) :
  PyStr.truthy (error state) = false ->
  let call :=
    EthicalRiskAssessment (user_input state)
      (history_for env state (MAX_CONVERSATION_HISTORY_TOKENS / 4)) in
  let lexical :=
    simple_keyword_check (user_input state) POTENTIAL_RISK_KEYWORDS in
  let w' := mkWorld (trace w ++ [LlmInvoke call]) (collection w)
              (model_loaded w) (collection_loaded w) (clock_reads w)
              (uuids_drawn w) in
  ethical_check_node env state w
  = match chain_invoke env call with
    | Some assessment =>
        (Returned
           (set_needs_escalation state
              (lexical
               || String.eqb (PyStr.upper (PyStr.strip assessment)) "YES")),
         w')
    | None =>
        (Returned
           (set_needs_escalation
              (set_error state
                 (Some (PyStr.or_empty (error state)
                        ++ " Ethical check LLM failed.")%string))
              lexical),
         w')
    end.
Proof.
  intros Hok call lexical w'.
  unfold ethical_check_node. rewrite Hok.
  unfold bind, try_except. rewrite invoke_chain_run.
  fold call. fold lexical. fold w'.
  destruct (chain_invoke env call) as [assessment|]; unfold ret; cbn [fst snd].
  - destruct lexical;
      destruct (String.eqb (PyStr.upper (PyStr.strip assessment)) "YES");
      reflexivity.
  - destruct lexical; reflexivity.
Qed.

(** The analysis stage always returns; its three outcomes. *)
Lemma process_input_node_run (state : AgentState float) (w : World float) :
  let call :=
    InputAnalysis (user_input state)
      (history_for env state (MAX_CONVERSATION_HISTORY_TOKENS / 2)) in
  let w' := mkWorld (trace w ++ [LlmInvoke call]) (collection w)
              (model_loaded w) (collection_loaded w) (clock_reads w)
              (uuids_drawn w) in
  process_input_node env state w
  = (Returned
       match chain_invoke env call with
       | None =>
           set_input_analysis
             (set_error state (Some "An error occurred during input analysis."))
             (Some (JObj [("error", JStr "LLM call failed")]))
       | Some analysis_str =>
           match json_loads env (cleaned_analysis analysis_str) with
           | Some analysis_json => set_input_analysis state (Some analysis_json)
           | None =>
               set_input_analysis
                 (set_error state (Some "Failed to analyze input."))
                 (Some (JObj [("error", JStr "JSON parsing failed")]))
           end
       end,
     w').
Proof.
  intros call w'.
  unfold process_input_node, try_except, bind. rewrite invoke_chain_run.
  fold call. fold w'. unfold cleaned_analysis.
  destruct (chain_invoke env call) as [analysis_str|]; [|reflexivity].
  destruct (json_loads env _); reflexivity.
Qed.

(** The retrieval block: what it can do to the state. *)
Lemma perform_retrieval_cases (state state' : AgentState float)
    (query_text : string) (w w' : World float) :
  perform_retrieval env state query_text w = (Returned state', w') ->
  (exists retrieved, state' = set_retrieved_memories state (Some retrieved))
  \/ state' = set_retrieved_memories
                (set_error state (Some "Failed to retrieve memories."))
                (Some []).
Proof.
  unfold perform_retrieval, try_except, bind.
  destruct (retrieve_relevant_memories env query_text (session_id state) 5 w)
    as [[retrieved|exn] w1]; unfold ret; intros Heq; injection Heq as <- <-.
  - left. now exists retrieved.
  - now right.
Qed.

(** The retrieval stage: it skips, or runs the retrieval block with no
    error recorded on entry. *)
Lemma retrieve_memory_node_cases (state state' : AgentState float)
    (w w' : World float) :
  retrieve_memory_node env state w = (Returned state', w') ->
  (state' = set_retrieved_memories state (Some []) /\ w' = w)
  \/ (PyStr.truthy (error state) = false
      /\ exists query_text w1,
           perform_retrieval env state query_text w1 = (Returned state', w')).
Proof.
  unfold retrieve_memory_node.
  destruct (PyStr.truthy (error state)) eqn:Herr; cbn [orb].
  { unfold ret. intros Heq. injection Heq as <- <-. now left. }
  destruct (negb (analysis_truthy env (input_analysis state))).
  { unfold ret. intros Heq. injection Heq as <- <-. now left. }
  destruct (input_analysis state) as [analysis|].
  2:{ unfold ret. intros Heq. injection Heq as <- <-. now left. }
  unfold bind at 1.
  destruct (dict_get analysis "error" JNull w) as [[analysis_error|exn] w0] eqn:Hget;
    [|discriminate].
  assert (w0 = w) as ->.
  { unfold dict_get in Hget. destruct analysis; try discriminate.
    destruct (lookup_field "error" fields); unfold ret in Hget;
      now injection Hget. }
  destruct (json_truthy env analysis_error).
  { unfold ret. intros Heq. injection Heq as <- <-. now left. }
  unfold retrieve_memory_body, bind.
  destruct (memory_query_text env state analysis w) as [[query_text|exn] w1];
    [|discriminate].
  intros Hrun. right. split; [reflexivity|]. now exists query_text, w1.
Qed.

(** The safety stage when an error is already recorded: both checks are
    skipped. *)
Lemma ethical_check_node_skip (state : AgentState float) (w : World float) :
  PyStr.truthy (error state) = true ->
  ethical_check_node env state w = (Returned (set_needs_escalation state false), w).
Proof. intros Herr. unfold ethical_check_node. now rewrite Herr. Qed.

(** The generation stage on its normal branch. *)
Lemma generate_response_node_normal (state : AgentState float) (w : World float) :
  PyStr.truthy (error state) = false ->
  needs_escalation state = false ->
  let analysis :=
    match input_analysis state with Some j => j | None => JNull end in
  let call :=
    ResponseGeneration (user_input state) (json_dumps env analysis)
      (format_memories env (retrieved_memories state))
      (history_for env state MAX_CONVERSATION_HISTORY_TOKENS) in
  let w1 := mkWorld (trace w ++ [LlmInvoke call]) (collection w)
              (model_loaded w) (collection_loaded w) (clock_reads w)
              (uuids_drawn w) in
  generate_response_node env state w
  = match chain_invoke env call with
    | None =>
        (Returned
           (set_generated_response
              (set_error state
                 (Some (PyStr.or_empty (error state)
                        ++ " Failed to generate response.")%string))
              (Some TROUBLE_REPLY)),
         w1)
    | Some response =>
        let replied := set_generated_response state (Some response) in
        match add_interaction env (user_input state) response
                (session_id state) w1 with
        | (Returned _, w2) => (Returned replied, w2)
        | (Raised _, w2) =>
            (Returned
               (set_error replied
                  (Some (PyStr.or_empty (error state)
                         ++ " Failed to save interaction to memory.")%string)),
             w2)
        end
    end.
Proof.
  intros Herr Hesc analysis call w1.
  unfold generate_response_node. rewrite Herr, Hesc.
  fold analysis. unfold try_except at 1. unfold bind at 1.
  rewrite invoke_chain_run. fold call. fold w1.
  destruct (chain_invoke env call) as [response|]; [|reflexivity].
  cbv zeta. unfold try_except, bind.
  cbn [user_input session_id set_generated_response error].
  destruct (add_interaction env (user_input state) response (session_id state) w1)
    as [[[]|exn] w2]; reflexivity.
Qed.

(** What a stage after the analysis can do to [error]: leave it, or append
    one of its own notes to what was there. *)
Lemma later_stage_error (stage : Node) (state state' : AgentState float)
    (w w' : World float) :
  In stage [retrieve_memory; ethical_check; generate_response] ->
  run_node env stage state w = (Returned state', w') ->
  error state' = error state
  \/ exists msg,
       In msg (stage_messages stage)
       /\ error state' = Some (PyStr.or_empty (error state) ++ msg)%string.
Proof.
  intros Hstage Hrun.
  destruct Hstage as [<- | [<- | [<- | []]]]; cbn [run_node stage_messages] in *.
  - destruct (retrieve_memory_node_cases _ _ _ _ Hrun)
      as [[-> _] | (Hfalsy & query_text & w1 & Hperf)]; [now left|].
    destruct (perform_retrieval_cases _ _ _ _ _ Hperf) as [[retrieved ->] | ->];
      [now left|].
    right. exists "Failed to retrieve memories.". split; [now left|].
    cbn [error set_retrieved_memories set_error].
    unfold PyStr.truthy, PyStr.or_empty in *.
    destruct (error state) as [s|]; [|reflexivity].
    destruct (String.eqb s EmptyString); [reflexivity | discriminate].
  - destruct (PyStr.truthy (error state)) eqn:Herr.
    + rewrite (ethical_check_node_skip state w Herr) in Hrun.
      injection Hrun as <- _. now left.
    + rewrite (ethical_check_node_run state w Herr) in Hrun. cbv zeta in Hrun.
      destruct (chain_invoke env _); injection Hrun as <- _; [now left|].
      right. exists " Ethical check LLM failed.". split; [now left | reflexivity].
  - destruct (PyStr.truthy (error state)) eqn:Herr.
    { unfold generate_response_node in Hrun. rewrite Herr in Hrun.
      injection Hrun as <- _. now left. }
    destruct (needs_escalation state) eqn:Hesc.
    { unfold generate_response_node in Hrun. rewrite Herr, Hesc in Hrun.
      injection Hrun as <- _. now left. }
    rewrite (generate_response_node_normal state w Herr Hesc) in Hrun.
    cbv zeta in Hrun.
    destruct (chain_invoke env _) as [response|].
    + destruct (add_interaction env _ _ _ _) as [[[]|exn] w2];
        injection Hrun as <- _; [now left|].
      right. exists " Failed to save interaction to memory.".
      split; [now left | reflexivity].
    + injection Hrun as <- _.
      right. exists " Failed to generate response.".
      split; [right; now left | reflexivity].
Qed.

(** A stage after the analysis, entered with an error recorded, does none
    of its fallible work: it returns in the same world and leaves [error] as
    it was. *)
Lemma later_stage_skips (stage : Node) (state : AgentState float)
    (w : World float) :
  In stage [retrieve_memory; ethical_check; generate_response] ->
  PyStr.truthy (error state) = true ->
  exists state',
    run_node env stage state w = (Returned state', w)
    /\ error state' = error state.
Proof.
  intros Hstage Herr.
  destruct Hstage as [<- | [<- | [<- | []]]]; cbn [run_node].
  - unfold retrieve_memory_node. rewrite Herr. cbn [orb].
    eexists. split; reflexivity.
  - rewrite (ethical_check_node_skip state w Herr).
    eexists. split; reflexivity.
  - unfold generate_response_node. rewrite Herr.
    eexists. split; reflexivity.
Qed.

(** The three stages before the conditional edge never write
    [generated_response]. *)
Lemma process_input_keeps_reply (state state' : AgentState float)
    (w w' : World float) :
  process_input_node env state w = (Returned state', w') ->
  generated_response state' = generated_response state.
Proof.
  rewrite process_input_node_run. cbv zeta. intros Heq. injection Heq as <- _.
  destruct (chain_invoke env _) as [analysis_str|]; [|reflexivity].
  destruct (json_loads env _); reflexivity.
Qed.

Lemma retrieve_memory_keeps_reply (state state' : AgentState float)
    (w w' : World float) :
  retrieve_memory_node env state w = (Returned state', w') ->
  generated_response state' = generated_response state.
Proof.
  intros Hrun.
  destruct (retrieve_memory_node_cases _ _ _ _ Hrun)
    as [[-> _] | (_ & query_text & w1 & Hperf)]; [reflexivity|].
  destruct (perform_retrieval_cases _ _ _ _ _ Hperf) as [[retrieved ->] | ->];
    reflexivity.
Qed.

Lemma ethical_check_keeps_reply (state state' : AgentState float)
    (w w' : World float) :
  ethical_check_node env state w = (Returned state', w') ->
  generated_response state' = generated_response state.
Proof.
  destruct (PyStr.truthy (error state)) eqn:Herr.
  - rewrite (ethical_check_node_skip state w Herr).
    intros Heq. injection Heq as <- _. reflexivity.
  - rewrite (ethical_check_node_run state w Herr). cbv zeta.
    destruct (chain_invoke env _); intros Heq; injection Heq as <- _; reflexivity.
Qed.

(** An error recorded when the retrieval stage returns means the stage
    left an empty list of memories. *)
Lemma retrieve_memory_error_empty (state state' : AgentState float)
    (w w' : World float) :
  retrieve_memory_node env state w = (Returned state', w') ->
  PyStr.truthy (error state') = true ->
  retrieved_memories state' = Some [].
Proof.
  intros Hrun Herr.
  destruct (retrieve_memory_node_cases _ _ _ _ Hrun)
    as [[-> _] | (Hfalsy & query_text & w1 & Hperf)]; [reflexivity|].
  destruct (perform_retrieval_cases _ _ _ _ _ Hperf) as [[retrieved ->] | ->];
    [|reflexivity].
  cbn [error set_retrieved_memories] in Herr. congruence.
Qed.

Lemma bind_returned {A B} (m : M float A) (k : A -> M float B)
    (a : A) (w w' : World float) :
  m w = (Returned a, w') -> bind m k w = k a w'.
Proof. intros H. unfold bind. now rewrite H. Qed.

(** One node execution of the graph. *)
Lemma run_graph_step (limit : nat) (n : Node) (state : AgentState float) :
  n <> END ->
  run_graph env (S limit) n state
  = bind (run_node env n state)
      (fun state' =>
         bind (next_node n state') (fun n' => run_graph env limit n' state')).
Proof. destruct n; intros Hn; solve [reflexivity | now contradiction Hn]. Qed.

Lemma run_graph_end (limit : nat) (state : AgentState float) :
  run_graph env limit END state = ret state.
Proof. destruct limit; reflexivity. Qed.

(** The graph, once the three early stages have returned. *)
Lemma invoke_after_early_stages (state s1 s2 s3 : AgentState float)
    (w w1 w2 w3 : World float) :
  process_input_node env state w = (Returned s1, w1) ->
  retrieve_memory_node env s1 w1 = (Returned s2, w2) ->
  ethical_check_node env s2 w2 = (Returned s3, w3) ->
  invoke env state w
  = if PyStr.truthy (error s3) then (Returned s3, w3)
    else generate_response_node env s3 w3.
Proof.
  intros H1 H2 H3.
  unfold invoke, RECURSION_LIMIT.
  rewrite run_graph_step by discriminate.
  rewrite (bind_returned _ _ s1 w w1) by exact H1.
  rewrite (bind_returned _ _ retrieve_memory w1 w1) by reflexivity.
  rewrite run_graph_step by discriminate.
  rewrite (bind_returned _ _ s2 w1 w2) by exact H2.
  rewrite (bind_returned _ _ ethical_check w2 w2) by reflexivity.
  rewrite run_graph_step by discriminate.
  rewrite (bind_returned _ _ s3 w2 w3) by exact H3.
  unfold next_node, should_continue.
  destruct (PyStr.truthy (error s3)).
  - rewrite (bind_returned _ _ END w3 w3) by reflexivity.
    now rewrite run_graph_end.
  - rewrite (bind_returned _ _ generate_response w3 w3)
      by (destruct (needs_escalation s3); reflexivity).
    rewrite run_graph_step by discriminate.
    unfold bind at 1. cbn [run_node].
    destruct (generate_response_node env s3 w3) as [[final|exn] w4];
      [|reflexivity].
    rewrite (bind_returned _ _ END w4 w4) by reflexivity.
    now rewrite run_graph_end.
Qed.

End NodeFacts.

(** C3.  When the safety stage runs its checks (it is entered with no
    error recorded) and the lexical keyword check matches the user input,
    the stage returns with [needs_escalation] true, whatever the risk
    assessment chain answers and also when its invocation raises. *)
Theorem ethical_check_lexical_positive_stands {float : Type}
    (env : Env float) (state : AgentState float) (w : World float)
    (Hentered : PyStr.truthy (error state) = false)
    (Hlexical :
       simple_keyword_check (user_input state) POTENTIAL_RISK_KEYWORDS = true) :
  forall outcome,
    chain_invoke env
      (EthicalRiskAssessment (user_input state)
         (history_for env state (MAX_CONVERSATION_HISTORY_TOKENS / 4)))
    = outcome ->
    exists state' w',
      ethical_check_node env state w = (Returned state', w')
      /\ needs_escalation state' = true.
Proof.
  intros outcome Hout.
  rewrite (ethical_check_node_run env state w Hentered). cbv zeta.
  rewrite Hout, Hlexical.
  destruct outcome; eexists; eexists; split; reflexivity.
Qed.

(** C4.  With [needs_escalation] true and no error recorded, the generation
    stage returns the state with [generated_response] set to
    [ESCALATION_MESSAGE] and leaves the world untouched: no chain is
    invoked and nothing is handed to the store. *)
Theorem generate_response_escalation_short_circuit {float : Type}
    (env : Env float) (state : AgentState float) (w : World float)
    (Hno_error : PyStr.truthy (error state) = false)
    (Hescalate : needs_escalation state = true) :
  exists state',
    generate_response_node env state w = (Returned state', w)
    /\ generated_response state' = Some ESCALATION_MESSAGE
    /\ state' = set_generated_response state (Some ESCALATION_MESSAGE).
Proof.
  unfold generate_response_node. rewrite Hno_error, Hescalate.
  eexists. repeat split.
Qed.

(** C2, counterexample.  The analysis stage entered with an error already
    recorded: when the analysis chain fails, and also when its answer is not
    JSON, the earlier note is gone and [error] holds the stage's note alone. *)
Lemma process_input_overwrites_error :
  let state := set_error (current_state "s" "hello" []) (Some "earlier failure") in
  let parse_fails : string -> option (Json Z) := fun _ => None in
  (exists state' w',
      process_input_node (sample_env llm_down loads_sample) state
        (started_world []) = (Returned state', w')
      /\ error state' = Some "An error occurred during input analysis."
      /\ PyStr.contains "earlier failure" "An error occurred during input analysis."
         = false)
  /\ (exists state' w',
      process_input_node (sample_env llm_up parse_fails) state
        (started_world []) = (Returned state', w')
      /\ error state' = Some "Failed to analyze input."
      /\ PyStr.contains "earlier failure" "Failed to analyze input." = false).
Proof.
  split; eexists; eexists; repeat split; reflexivity.
Qed.

(** C2, amended.  For the retrieval, safety and generation stages and
    every state whose [error] holds a non-empty message [A]: the stage makes
    no collaborator call and returns, in the world it was given, with
    [error] still exactly [A].  These stages do none of their fallible work
    once an error is recorded, so on such a state none of them fails on its
    own and the recorded message is neither replaced nor extended.  A later
    stage writes [error] only when it was unset or empty on entry, and then
    [error] holds the stage's own note. *)
Theorem later_stages_keep_recorded_error {float : Type}
    (env : Env float) (stage : Node) (state : AgentState float)
    (w : World float) (A : string)
    (Hstage : In stage [retrieve_memory; ethical_check; generate_response])
    (Hprior : error state = Some A)
    (Hnonempty : A <> EmptyString) :
  (exists state',
      run_node env stage state w = (Returned state', w)
      /\ error state' = Some A)
  /\ (forall (entered returned : AgentState float) (w0 w1 : World float),
         run_node env stage entered w0 = (Returned returned, w1) ->
         error returned = error entered
         \/ (PyStr.truthy (error entered) = false
             /\ exists note,
                  In note (stage_messages stage)
                  /\ error returned = Some note)).
Proof.
  split.
  - assert (Htruthy : PyStr.truthy (error state) = true).
    { rewrite Hprior. cbn [PyStr.truthy].
      now destruct (String.eqb_spec A EmptyString). }
    destruct (later_stage_skips env stage state w Hstage Htruthy)
      as (state' & Hrun & Herr).
    exists state'. split; [exact Hrun|]. now rewrite Herr.
  - intros entered returned w0 w1 Hrun.
    destruct (PyStr.truthy (error entered)) eqn:Htruthy.
    + destruct (later_stage_skips env stage entered w0 Hstage Htruthy)
        as (state' & Hskip & Herr).
      rewrite Hskip in Hrun. injection Hrun as <- _. now left.
    + destruct (later_stage_error env stage entered returned w0 w1 Hstage Hrun)
        as [Hsame | (note & Hnote & Happ)]; [now left|].
      right. split; [reflexivity|]. exists note. split; [exact Hnote|].
      rewrite Happ. f_equal.
      unfold PyStr.truthy, PyStr.or_empty in *.
      destruct (error entered) as [s|]; [|reflexivity].
      destruct (String.eqb s EmptyString); [reflexivity | discriminate].
Qed.

(** C1, counterexample.  The analysis chain fails on the input
    ["had a rough day at work"]: the turn ends with [error] set and with
    [generated_response] still [None], which is neither of the two fallback
    replies. *)
Lemma analysis_failure_leaves_no_reply :
  exists final w',
    invoke (sample_env llm_down loads_sample)
      (current_state "s" "had a rough day at work" []) (started_world [])
    = (Returned final, w')
    /\ error final = Some "An error occurred during input analysis."
    /\ generated_response final = None
    /\ generated_response final <> Some ERROR_REPLY
    /\ generated_response final <> Some TROUBLE_REPLY.
Proof.
  eexists; eexists. split; [vm_compute; reflexivity|].
  repeat split; discriminate.
Qed.

(** C1, amended.  When [error] is set once the safety stage has returned,
    the router answers ["end"] and the graph stops there: the final state is
    the one the safety stage returned, the generation stage is not run, and
    [generated_response] is what it was when the turn started.  When the
    error was already set before the safety stage, [retrieved_memories] is
    the empty list and [needs_escalation] is false; this is the case when
    the analysis chain fails, where [error] is the analysis-failure note. *)
Theorem error_before_routing_ends_turn {float : Type}
    (env : Env float) (state s1 s2 s3 : AgentState float)
    (w w1 w2 w3 : World float)
    (Hanalysis : process_input_node env state w = (Returned s1, w1))
    (Hretrieval : retrieve_memory_node env s1 w1 = (Returned s2, w2))
    (Hsafety : ethical_check_node env s2 w2 = (Returned s3, w3))
    (Herror : PyStr.truthy (error s3) = true) :
  should_continue s3 = "end"
  /\ next_node ethical_check s3 w3 = (Returned END, w3)
  /\ invoke env state w = (Returned s3, w3)
  /\ generated_response s3 = generated_response state
  /\ (PyStr.truthy (error s2) = true ->
      retrieved_memories s3 = Some [] /\ needs_escalation s3 = false
      /\ error s3 = error s2)
  /\ (chain_invoke env
        (InputAnalysis (user_input state)
           (history_for env state (MAX_CONVERSATION_HISTORY_TOKENS / 2)))
      = None ->
      error s3 = Some "An error occurred during input analysis."
      /\ retrieved_memories s3 = Some [] /\ needs_escalation s3 = false).
Proof.
  assert (Hroute : should_continue s3 = "end")
    by (unfold should_continue; now rewrite Herror).
  assert (Hearly : PyStr.truthy (error s2) = true ->
            retrieved_memories s3 = Some [] /\ needs_escalation s3 = false
            /\ error s3 = error s2).
  { intros Herr2.
    rewrite (ethical_check_node_skip env s2 w2 Herr2) in Hsafety.
    injection Hsafety as <- _.
    cbn [retrieved_memories needs_escalation error set_needs_escalation].
    repeat split. exact (retrieve_memory_error_empty env _ _ _ _ Hretrieval Herr2). }
  refine (conj _ (conj _ (conj _ (conj _ (conj _ _))))).
  - exact Hroute.
  - cbn [next_node]. now rewrite Hroute.
  - rewrite (invoke_after_early_stages env _ _ _ _ _ _ _ _ Hanalysis Hretrieval Hsafety).
    now rewrite Herror.
  - rewrite (ethical_check_keeps_reply env _ _ _ _ Hsafety),
      (retrieve_memory_keeps_reply env _ _ _ _ Hretrieval).
    exact (process_input_keeps_reply env _ _ _ _ Hanalysis).
  - exact Hearly.
  - intros Hfail. rewrite process_input_node_run in Hanalysis. cbv zeta in Hanalysis.
    rewrite Hfail in Hanalysis. injection Hanalysis as <- _.
    assert (Herr2 : error s2 = Some "An error occurred during input analysis.").
    { destruct (retrieve_memory_node_cases env _ _ _ _ Hretrieval)
        as [[-> _] | (Hfalsy & _)]; [reflexivity | discriminate]. }
    assert (Htruthy : PyStr.truthy (error s2) = true) by now rewrite Herr2.
    destruct (Hearly Htruthy) as (Hmem & Hesc & Herr3).
    rewrite Herr3, Herr2. now repeat split.
Qed.

(** C5.  There is a turn on which the lexical keyword check matches and the
    risk assessment chain raises: the safety stage, entered without an
    error, returns with [needs_escalation] true and [error] set; the router
    answers ["end"], the conditional edge leads to [END], and the turn ends
    with [generated_response] still [None], so the escalation message is
    not emitted. *)
Theorem lexical_hit_with_failed_assessment_ends_silently :
  exists (env : Env Z) (state : AgentState Z) (w : World Z),
    simple_keyword_check (user_input state) POTENTIAL_RISK_KEYWORDS = true
    /\ chain_invoke env
         (EthicalRiskAssessment (user_input state)
            (history_for env state (MAX_CONVERSATION_HISTORY_TOKENS / 4)))
       = None
    /\ exists s2 w2 checked w3,
         bind (process_input_node env state) (retrieve_memory_node env) w
         = (Returned s2, w2)
         /\ PyStr.truthy (error s2) = false
         /\ ethical_check_node env s2 w2 = (Returned checked, w3)
         /\ needs_escalation checked = true
         /\ error checked = Some " Ethical check LLM failed."
         /\ should_continue checked = "end"
         /\ next_node ethical_check checked w3 = (Returned END, w3)
         /\ invoke env state w = (Returned checked, w3)
         /\ generated_response checked = None
         /\ generated_response checked <> Some ESCALATION_MESSAGE.
Proof.
  exists (sample_env llm_without_risk_check loads_sample),
    (current_state "s" "I feel hopeless and can't go on" []),
    (started_world []).
  split; [reflexivity|]. split; [reflexivity|].
  do 4 eexists.
  split; [vm_compute; reflexivity|].
  split; [reflexivity|].
  split; [vm_compute; reflexivity|].
  repeat split; try reflexivity. discriminate.
Qed.

(** C9.  With the collection open and the encoder handle at hand,
    [add_interaction] returns without raising; the rows it hands to
    [collection.add] are the user row followed by the AI row, each one
    present exactly when its own embedding is a non-empty vector (whatever
    the other side's embedding and whatever the store answers to the other
    [add]), the collection afterwards holding every row whose [add]
    returned.  When both embeddings succeed these are exactly two rows, with
    role [user] and role [ai], the same timestamp, the session identifier
    and the embedding model name.  And whatever [add_interaction] does,
    also when it raises for want of a handle, the generation stage returns
    with the generated reply. *)
Theorem add_interaction_two_independent_rows {float : Type}
    (env : Env float) (user_text ai_text session : string) (w : World float)
    (Hcollection : collection_loaded w = true)
    (Hencoder : encoder_available env w) :
  let timestamp := utcnow_isoformat env (clock_reads w) in
  let user_doc := ("User said: " ++ user_text)%string in
  let ai_doc := ("AI responded: " ++ ai_text)%string in
  let user_rows :=
    side_rows (embedding_of env user_doc) (uuid4 env (uuids_drawn w)) user_doc
      (interaction_metadata "user" timestamp session) in
  let ai_rows :=
    side_rows (embedding_of env ai_doc)
      (uuid4 env (uuids_drawn w + length user_rows)) ai_doc
      (interaction_metadata "ai" timestamp session) in
  (exists w' events,
      add_interaction env user_text ai_text session w = (Returned tt, w')
      /\ extends w w' events
      /\ added_rows events = user_rows ++ ai_rows
      /\ collection w' = apply_adds env (collection w) (user_rows ++ ai_rows))
  /\ (forall user_embedding ai_embedding,
         model_encode env user_doc = Some user_embedding ->
         user_embedding <> [] ->
         model_encode env ai_doc = Some ai_embedding ->
         ai_embedding <> [] ->
         user_rows ++ ai_rows
         = [mkStoredMemory (uuid4 env (uuids_drawn w)) user_embedding user_doc
              [("type", "episodic"); ("role", "user"); ("timestamp", timestamp);
               ("session_id", session); ("embedding_model", "all-MiniLM-L6-v2")];
            mkStoredMemory (uuid4 env (S (uuids_drawn w))) ai_embedding ai_doc
              [("type", "episodic"); ("role", "ai"); ("timestamp", timestamp);
               ("session_id", session); ("embedding_model", "all-MiniLM-L6-v2")]])
  /\ (forall (state : AgentState float) (w0 : World float) response,
         PyStr.truthy (error state) = false ->
         needs_escalation state = false ->
         chain_invoke env
           (ResponseGeneration (user_input state)
              (json_dumps env
                 match input_analysis state with Some j => j | None => JNull end)
              (format_memories env (retrieved_memories state))
              (history_for env state MAX_CONVERSATION_HISTORY_TOKENS))
         = Some response ->
         exists state' w0',
           generate_response_node env state w0 = (Returned state', w0')
           /\ generated_response state' = Some response).
Proof.
  intros timestamp user_doc ai_doc user_rows ai_rows.
  refine (conj _ (conj _ _)).
  - destruct (add_interaction_returns env user_text ai_text session w
                Hcollection Hencoder)
      as (w' & events & Hrun & Hext & Hrows & _ & Hcoll).
    exists w', events. repeat split; assumption.
  - intros user_embedding ai_embedding Hu Hune Ha Hane.
    assert (Hue : embedding_of env user_doc = Some user_embedding).
    { unfold embedding_of. unfold user_doc at 1. cbn [append].
      now rewrite strip_not_blank by reflexivity. }
    assert (Hae : embedding_of env ai_doc = Some ai_embedding).
    { unfold embedding_of. unfold ai_doc at 1. cbn [append].
      now rewrite strip_not_blank by reflexivity. }
    subst user_rows ai_rows. rewrite Hue, Hae. unfold side_rows.
    destruct user_embedding as [|x user_embedding]; [now contradiction Hune|].
    destruct ai_embedding as [|y ai_embedding]; [now contradiction Hane|].
    cbn [embedding_truthy length app]. rewrite Nat.add_1_r. reflexivity.
  - intros state w0 response Herr Hesc Hresp.
    rewrite (generate_response_node_normal env state w0 Herr Hesc). cbv zeta.
    rewrite Hresp.
    destruct (add_interaction env _ _ _ _) as [[[]|exn] w2];
      eexists; eexists; split; reflexivity.
Qed.

(* ================================================================== *)
(** * The statements at concrete inputs *)

Lemma error_before_routing_ends_turn_witness :
  let env := sample_env llm_down loads_sample in
  let state : AgentState Z := current_state "s" "had a rough day at work" [] in
  let w : World Z := started_world [] in
  exists s1 w1 s2 w2 s3 w3,
    process_input_node env state w = (Returned s1, w1)
    /\ retrieve_memory_node env s1 w1 = (Returned s2, w2)
    /\ ethical_check_node env s2 w2 = (Returned s3, w3)
    /\ PyStr.truthy (error s3) = true
    /\ invoke env state w = (Returned s3, w3)
    /\ generated_response s3 = None
    /\ retrieved_memories s3 = Some []
    /\ needs_escalation s3 = false.
Proof.
  intros env state w.
  do 6 eexists.
  split; [vm_compute; reflexivity|].
  split; [vm_compute; reflexivity|].
  split; [vm_compute; reflexivity|].
  split; [reflexivity|].
  assert (Hthm := error_before_routing_ends_turn env state _ _ _ w _ _ _
                    eq_refl eq_refl eq_refl eq_refl).
  destruct Hthm as (_ & _ & Hinvoke & Hreply & _ & Hfail).
  split; [exact Hinvoke|]. split; [exact Hreply|].
  destruct (Hfail eq_refl) as (_ & Hmem & Hesc). now split.
Defined.

Lemma later_stages_keep_recorded_error_witness :
  let env := sample_env llm_down loads_sample in
  let state : AgentState Z :=
    set_error (current_state "s" "I feel hopeless" []) (Some "earlier failure") in
  let w : World Z := started_world [] in
  In ethical_check [retrieve_memory; ethical_check; generate_response]
  /\ error state = Some "earlier failure"
  /\ "earlier failure" <> EmptyString
  /\ exists state',
       run_node env ethical_check state w = (Returned state', w)
       /\ error state' = Some "earlier failure".
Proof.
  intros env state w.
  assert (Hstage : In ethical_check
                     [retrieve_memory; ethical_check; generate_response])
    by (right; left; reflexivity).
  assert (Hnonempty : "earlier failure" <> EmptyString) by discriminate.
  split; [exact Hstage|]. split; [reflexivity|]. split; [exact Hnonempty|].
  exact (proj1 (later_stages_keep_recorded_error env ethical_check state w
                  "earlier failure" Hstage eq_refl Hnonempty)).
Defined.

Lemma ethical_check_lexical_positive_stands_witness :
  let env := sample_env llm_up loads_sample in
  let state : AgentState Z := current_state "s" "I feel hopeless" [] in
  let w : World Z := started_world [] in
  PyStr.truthy (error state) = false
  /\ simple_keyword_check (user_input state) POTENTIAL_RISK_KEYWORDS = true
  /\ chain_invoke env
       (EthicalRiskAssessment (user_input state)
          (history_for env state (MAX_CONVERSATION_HISTORY_TOKENS / 4)))
     = Some "NO"
  /\ exists state' w',
       ethical_check_node env state w = (Returned state', w')
       /\ needs_escalation state' = true.
Proof.
  intros env state w.
  split; [reflexivity|]. split; [reflexivity|]. split; [reflexivity|].
  exact (ethical_check_lexical_positive_stands env state w eq_refl eq_refl
           (Some "NO") eq_refl).
Defined.

Lemma generate_response_escalation_short_circuit_witness :
  let env := sample_env llm_up loads_sample in
  let state : AgentState Z :=
    set_needs_escalation (current_state "s" "I feel hopeless" []) true in
  let w : World Z := started_world [] in
  PyStr.truthy (error state) = false
  /\ needs_escalation state = true
  /\ exists state',
       generate_response_node env state w = (Returned state', w)
       /\ generated_response state' = Some ESCALATION_MESSAGE
       /\ state' = set_generated_response state (Some ESCALATION_MESSAGE).
Proof.
  intros env state w.
  split; [reflexivity|]. split; [reflexivity|].
  exact (generate_response_escalation_short_circuit env state w eq_refl eq_refl).
Defined.

Lemma add_interaction_two_independent_rows_witness :
  let env := sample_env llm_up loads_sample in
  let w : World Z := started_world [] in
  collection_loaded w = true
  /\ encoder_available env w
  /\ exists w' events,
       add_interaction env "hi" "hello" "s" w = (Returned tt, w')
       /\ extends w w' events
       /\ added_rows events
          = [mkStoredMemory "id-0" [13%Z] "User said: hi"
               [("type", "episodic"); ("role", "user");
                ("timestamp", "2025-01-01T00:00:00+00:00");
                ("session_id", "s"); ("embedding_model", "all-MiniLM-L6-v2")];
             mkStoredMemory "id-1" [19%Z] "AI responded: hello"
               [("type", "episodic"); ("role", "ai");
                ("timestamp", "2025-01-01T00:00:00+00:00");
                ("session_id", "s"); ("embedding_model", "all-MiniLM-L6-v2")]]
       /\ collection w' = added_rows events.
Proof.
  intros env w.
  assert (Hencoder : encoder_available env w) by (right; reflexivity).
  split; [reflexivity|]. split; [exact Hencoder|].
  destruct (add_interaction_two_independent_rows env "hi" "hello" "s" w
              eq_refl Hencoder)
    as ((w' & events & Hrun & Hext & Hrows & Hcoll) & _ & _).
  exists w', events.
  split; [exact Hrun|]. split; [exact Hext|].
  split; [rewrite Hrows; reflexivity|]. rewrite Hcoll, Hrows. reflexivity.
Defined.

(** The healthy turn: the reply is the generated text, no error is
    recorded and the collection holds the two rows of the turn. *)
Example healthy_turn :
  exists final w',
    invoke (sample_env llm_up loads_sample)
      (current_state "s" "had a rough day at work" []) (started_world [])
    = (Returned final, w')
    /\ generated_response final = Some "ok"
    /\ error final = None
    /\ map sm_document (collection w')
       = ["User said: had a rough day at work"; "AI responded: ok"]
    /\ map sm_metadata (collection w')
       = [interaction_metadata "user" "2025-01-01T00:00:00+00:00" "s";
          interaction_metadata "ai" "2025-01-01T00:00:00+00:00" "s"].
Proof.
  do 2 eexists. split; [vm_compute; reflexivity|]. repeat split.
Qed.

(** The escalated turn: the reply is the escalation message and nothing is
    stored. *)
Example escalated_turn :
  exists final w',
    invoke (sample_env llm_up loads_sample)
      (current_state "s" "I feel hopeless and can't go on" []) (started_world [])
    = (Returned final, w')
    /\ needs_escalation final = true
    /\ generated_response final = Some ESCALATION_MESSAGE
    /\ collection w' = [].
Proof.
  do 2 eexists. split; [vm_compute; reflexivity|]. repeat split.
Qed.

(* ================================================================== *)
(** * Further properties of the history formatter *)

Section HistoryMore.

Variable count_tokens : string -> nat.

(** Turns that fit as a whole are all taken. *)
Lemma taken_all (turns : list Turn) :
  forall cur b,
    (cur + total_tokens count_tokens turns <= b)%Z ->
    taken count_tokens turns cur b = turns.
Proof.
  induction turns as [|t turns IH]; intros cur b Hfit; simpl; [reflexivity|].
  simpl in Hfit. pose proof (total_tokens_nonneg count_tokens turns).
  assert (Hle : (cur + turn_tokens count_tokens t <=? b)%Z = true)
    by (apply Z.leb_le; lia).
  rewrite Hle. f_equal. apply IH. lia.
Qed.

(** What is taken from a list is a prefix of what is taken from the list
    with more turns after it. *)
Lemma taken_app_prefix (xs ys : list Turn) :
  forall cur b,
    exists extra,
      taken count_tokens (xs ++ ys) cur b = taken count_tokens xs cur b ++ extra.
Proof.
  induction xs as [|x xs IH]; intros cur b; simpl.
  - now exists (taken count_tokens ys cur b).
  - destruct (cur + turn_tokens count_tokens x <=? b)%Z.
    + destruct (IH (cur + turn_tokens count_tokens x)%Z b) as (extra & ->).
      now exists extra.
    + now exists [].
Qed.

End HistoryMore.

(** X1.  A history whose rendered turns together cost no more than the
    budget is kept whole: every turn is included, in order. *)
Theorem format_conversation_history_keeps_all
    (count_tokens : string -> nat) (history : list Turn) (max_tokens : Z)
    (Hfits : (total_tokens count_tokens history <= max_tokens)%Z) :
  included_turns count_tokens history max_tokens = map turn_text history
  /\ format_conversation_history count_tokens history max_tokens
     = PyStr.join PyStr.nl (map turn_text history).
Proof.
  assert (Hinc : included_turns count_tokens history max_tokens
                 = map turn_text history).
  { rewrite included_turns_taken, taken_all.
    - now rewrite rev_involutive.
    - rewrite total_tokens_rev. lia. }
  split; [exact Hinc|].
  unfold format_conversation_history. now rewrite Hinc.
Qed.

Lemma format_conversation_history_keeps_all_witness :
  (total_tokens String.length sample_history <= 100)%Z
  /\ included_turns String.length sample_history 100
     = map turn_text sample_history
  /\ format_conversation_history String.length sample_history 100
     = PyStr.join PyStr.nl (map turn_text sample_history).
Proof.
  assert (Hfits : (total_tokens String.length sample_history <= 100)%Z)
    by (vm_compute; discriminate).
  split; [exact Hfits|].
  exact (format_conversation_history_keeps_all String.length sample_history 100
           Hfits).
Defined.

(** X2.  Nothing is included exactly when the history is empty or its most
    recent turn alone costs more than the budget, whatever the older turns
    cost. *)
Theorem included_turns_empty_iff
    (count_tokens : string -> nat) (history : list Turn) (max_tokens : Z) :
  included_turns count_tokens history max_tokens = []
  <-> (history = []
       \/ exists older t,
            history = older ++ [t]
            /\ (max_tokens < turn_tokens count_tokens t)%Z).
Proof.
  rewrite included_turns_taken.
  destruct (rev history) as [|t rest] eqn:Hrev.
  - assert (history = []) as ->.
    { apply (f_equal (@rev Turn)) in Hrev. now rewrite rev_involutive in Hrev. }
    simpl. split; [now left | reflexivity].
  - assert (Hhist : history = rev rest ++ [t]).
    { apply (f_equal (@rev Turn)) in Hrev. now rewrite rev_involutive in Hrev. }
    simpl. destruct (turn_tokens count_tokens t <=? max_tokens)%Z eqn:Hfit.
    + split.
      * intros Hnil. apply (f_equal (@length string)) in Hnil.
        rewrite length_map, length_rev in Hnil. simpl in Hnil. discriminate.
      * intros [Hnil | (older & u & Heq & Hover)].
        -- rewrite Hnil in Hhist. now destruct (rev rest).
        -- rewrite Hhist in Heq. apply app_inj_tail in Heq as [_ <-].
           apply Z.leb_le in Hfit. lia.
    + split; [|reflexivity].
      intros _. right. exists (rev rest), t. split; [exact Hhist|].
      now apply Z.leb_gt in Hfit.
Qed.

(** X3.  Putting older turns in front of a history never removes a recent
    turn from the window: what was included is still included, as the end of
    the new window and of the new text. *)
Theorem format_conversation_history_older_prefix
    (count_tokens : string -> nat) (older history : list Turn) (max_tokens : Z) :
  exists front,
    included_turns count_tokens (older ++ history) max_tokens
    = front ++ included_turns count_tokens history max_tokens
    /\ exists text_front,
         format_conversation_history count_tokens (older ++ history) max_tokens
         = (text_front
            ++ format_conversation_history count_tokens history max_tokens)%string.
Proof.
  destruct (taken_app_prefix count_tokens (rev history) (rev older) 0 max_tokens)
    as (extra & Hext).
  exists (map turn_text (rev extra)).
  assert (Hinc : included_turns count_tokens (older ++ history) max_tokens
                 = map turn_text (rev extra)
                   ++ included_turns count_tokens history max_tokens).
  { rewrite !included_turns_taken, rev_app_distr, Hext, rev_app_distr.
    now rewrite map_app. }
  split; [exact Hinc|].
  unfold format_conversation_history. rewrite Hinc. apply join_app_suffix.
Qed.

(* ================================================================== *)
(** * Further properties of the keyword check *)

Lemma lower_upper_char (c : ascii) :
  PyStr.lower_char (PyStr.upper_char c) = PyStr.lower_char c.
Proof. destruct c as [[] [] [] [] [] [] [] []]; reflexivity. Qed.

Lemma lower_char_not_upper (c : ascii) :
  PyStr.is_upper (PyStr.lower_char c) = false.
Proof. destruct c as [[] [] [] [] [] [] [] []]; reflexivity. Qed.

Lemma lower_upper (s : string) : PyStr.lower (PyStr.upper s) = PyStr.lower s.
Proof.
  unfold PyStr.lower, PyStr.upper.
  induction s as [|c s IH]; simpl; [reflexivity|].
  now rewrite lower_upper_char, IH.
Qed.

Lemma lower_append (a b : string) :
  PyStr.lower (a ++ b) = (PyStr.lower a ++ PyStr.lower b)%string.
Proof.
  unfold PyStr.lower. induction a as [|c a IH]; simpl; [reflexivity|].
  now rewrite IH.
Qed.

Lemma lower_has_no_upper (s : string) : has_upper (PyStr.lower s) = false.
Proof.
  unfold PyStr.lower. induction s as [|c s IH]; simpl; [reflexivity|].
  now rewrite lower_char_not_upper, IH.
Qed.

Lemma prefix_append_r (k s post : string) :
  String.prefix k s = true -> String.prefix k (s ++ post)%string = true.
Proof.
  revert s. induction k as [|x k IH]; intros s H.
  - now destruct (s ++ post)%string.
  - destruct s as [|y s]; simpl in *; [discriminate|].
    destruct (ascii_dec x y); [now apply IH | discriminate].
Qed.

(** A substring of a text is a substring of the text with more around it. *)
Lemma contains_append_after (k s post : string) :
  PyStr.contains k s = true -> PyStr.contains k (s ++ post)%string = true.
Proof.
  induction s as [|c s IH]; cbn [PyStr.contains append]; intros H.
  - rewrite orb_false_r in H. apply contains_of_prefix.
    now apply (prefix_append_r k EmptyString post).
  - apply orb_true_iff in H as [H | H].
    + change (String c (s ++ post)) with (String c s ++ post)%string.
      rewrite (prefix_append_r _ _ post H). reflexivity.
    + rewrite (IH H). apply orb_true_r.
Qed.

Lemma contains_append_before (k pre s : string) :
  PyStr.contains k s = true -> PyStr.contains k (pre ++ s)%string = true.
Proof.
  intros H. induction pre as [|c pre IH]; cbn [PyStr.contains append];
    [exact H|].
  rewrite IH. apply orb_true_r.
Qed.

Lemma prefix_has_upper (k s : string) :
  String.prefix k s = true -> has_upper k = true -> has_upper s = true.
Proof.
  revert s. induction k as [|x k IH]; intros s Hp Hu; [discriminate|].
  destruct s as [|y s]; simpl in *; [discriminate|].
  destruct (ascii_dec x y) as [<-|]; [|discriminate].
  apply orb_true_iff in Hu as [Hu | Hu].
  - now rewrite Hu.
  - rewrite (IH s Hp Hu). apply orb_true_r.
Qed.

Lemma contains_has_upper (k s : string) :
  PyStr.contains k s = true -> has_upper k = true -> has_upper s = true.
Proof.
  induction s as [|c s IH]; cbn [PyStr.contains]; intros H Hu.
  - rewrite orb_false_r in H. exact (prefix_has_upper _ _ H Hu).
  - apply orb_true_iff in H as [H | H].
    + exact (prefix_has_upper _ _ H Hu).
    + simpl. rewrite (IH H Hu). apply orb_true_r.
Qed.

(** The loop answers whether some keyword occurs in the text. *)
Lemma keyword_loop_existsb (text_lower : string) (keywords : list string) :
  keyword_loop text_lower keywords
  = existsb (fun keyword => PyStr.contains keyword text_lower) keywords.
Proof.
  induction keywords as [|k more IH]; simpl; [reflexivity|].
  now destruct (PyStr.contains k text_lower).
Qed.

(** X4.  For ASCII texts: a text that matches still matches with any text
    put before and after it. *)
Theorem simple_keyword_check_surrounded
    (text before after : string) (keywords : list string)
    (Hascii : is_ascii (before ++ text ++ after) = true)
    (Hmatch : simple_keyword_check text keywords = true) :
  simple_keyword_check (before ++ text ++ after) keywords = true.
Proof.
  unfold simple_keyword_check in *.
  rewrite keyword_loop_existsb in *.
  apply existsb_exists in Hmatch as (k & Hin & Hk).
  apply existsb_exists. exists k. split; [exact Hin|].
  rewrite !lower_append.
  now apply contains_append_before, contains_append_after.
Qed.

Lemma simple_keyword_check_surrounded_witness :
  is_ascii ("There was " ++ "no abuse" ++ " at all") = true
  /\ simple_keyword_check "no abuse" POTENTIAL_RISK_KEYWORDS = true
  /\ simple_keyword_check ("There was " ++ "no abuse" ++ " at all")
       POTENTIAL_RISK_KEYWORDS = true.
Proof.
  split; [reflexivity|]. split; [reflexivity|].
  exact (simple_keyword_check_surrounded "no abuse" "There was " " at all"
           POTENTIAL_RISK_KEYWORDS eq_refl eq_refl).
Defined.

(** X5.  For an ASCII text the check does not depend on the case of the
    text: the text and its upper-cased form get the same answer. *)
Theorem simple_keyword_check_ignores_text_case
    (text : string) (keywords : list string)
    (Hascii : is_ascii text = true) :
  simple_keyword_check (PyStr.upper text) keywords
  = simple_keyword_check text keywords.
Proof. unfold simple_keyword_check. now rewrite lower_upper. Qed.

Lemma simple_keyword_check_ignores_text_case_witness :
  is_ascii "I can't go on" = true
  /\ simple_keyword_check (PyStr.upper "I can't go on") POTENTIAL_RISK_KEYWORDS
     = simple_keyword_check "I can't go on" POTENTIAL_RISK_KEYWORDS.
Proof.
  split; [reflexivity|].
  exact (simple_keyword_check_ignores_text_case "I can't go on"
           POTENTIAL_RISK_KEYWORDS eq_refl).
Defined.

(** X6.  Keywords are compared as written with the lower-cased text, so a
    keyword holding an upper-case letter never matches: the answer is the
    same with those keywords removed from the list. *)
Theorem simple_keyword_check_upper_keywords_dead
    (text : string) (keywords : list string) :
  simple_keyword_check text keywords
  = simple_keyword_check text
      (filter (fun keyword => negb (has_upper keyword)) keywords).
Proof.
  unfold simple_keyword_check.
  induction keywords as [|k more IH]; simpl; [reflexivity|].
  destruct (has_upper k) eqn:Hu; simpl.
  - destruct (PyStr.contains k (PyStr.lower text)) eqn:Hc; [|exact IH].
    pose proof (contains_has_upper _ _ Hc Hu) as Habs.
    rewrite lower_has_no_upper in Habs. discriminate.
  - now rewrite IH.
Qed.

(* ================================================================== *)
(** * Further properties of the memory gateway *)

Section MemoryMore.

Context {float : Type}.
Variable env : Env float.

Lemma encoder_unavailable (w : World float) :
  model_loaded w = false -> sentence_transformer env = false ->
  ~ encoder_available env w.
Proof. intros H1 H2 [H | H]; congruence. Qed.

(** [get_embedding] with the encoder loaded: no load is attempted. *)
Lemma get_embedding_loaded (text : string) (w : World float) :
  model_loaded w = true ->
  get_embedding env text w
  = (Returned (embedding_of env text),
     if String.eqb (PyStr.strip text) EmptyString then w
     else mkWorld (trace w ++ [Encode text]) (collection w) (model_loaded w)
            (collection_loaded w) (clock_reads w) (uuids_drawn w)).
Proof.
  intros Hloaded.
  cbv [get_embedding embedding_of get_embedding_model bind try_except emit ret
       raise].
  rewrite Hloaded.
  destruct (String.eqb (PyStr.strip text) EmptyString); [reflexivity|].
  destruct (model_encode env text); now rewrite ?Hloaded.
Qed.

(** [get_embedding] when the encoder cannot be loaded. *)
Lemma get_embedding_load_failure (text : string) (w : World float) :
  model_loaded w = false -> sentence_transformer env = false ->
  get_embedding env text w
  = (Raised BackendError,
     mkWorld (trace w ++ [ModelLoad]) (collection w) (model_loaded w)
       (collection_loaded w) (clock_reads w) (uuids_drawn w)).
Proof.
  intros Hloaded Hload.
  cbv [get_embedding get_embedding_model bind].
  now rewrite Hloaded, Hload.
Qed.

(** Once [get_embedding] has returned, the encoder is loaded. *)
Lemma get_embedding_returned_loaded (text : string) (w w' : World float)
    (embedding : option (list float)) :
  get_embedding env text w = (Returned embedding, w') ->
  model_loaded w' = true.
Proof.
  destruct (model_loaded w) eqn:Hloaded.
  - rewrite (get_embedding_loaded text w Hloaded).
    intros H. injection H as _ <-.
    now destruct (String.eqb (PyStr.strip text) EmptyString).
  - destruct (sentence_transformer env) eqn:Hload.
    + destruct (get_embedding_returns env text w (or_intror Hload))
        as (w1 & events & -> & _ & _ & _ & Hm & _).
      intros H. now injection H as _ <-.
    + rewrite (get_embedding_load_failure text w Hloaded Hload). discriminate.
Qed.

(** Insertion keeps the elements. *)
Lemma insert_by_distance_perm (x : MemoryRecord float)
    (records : list (MemoryRecord float)) :
  Permutation (insert_by_distance env x records) (x :: records).
Proof.
  induction records as [|y rest IH]; simpl; [reflexivity|].
  destruct (float_lt env (distance y) (distance x)); [|reflexivity].
  rewrite IH. apply perm_swap.
Qed.

Lemma insert_by_distance_ascending (x : MemoryRecord float)
    (records : list (MemoryRecord float)) :
  (forall a b, float_lt env a b = true -> float_lt env b a = false) ->
  ascending env records = true ->
  ascending env (insert_by_distance env x records) = true.
Proof.
  intros Hasym.
  induction records as [|y rest IH]; intros Hasc; [reflexivity|].
  cbn [insert_by_distance].
  destruct (float_lt env (distance y) (distance x)) eqn:Hyx.
  - destruct rest as [|z rest'].
    + cbn. now rewrite (Hasym _ _ Hyx).
    + cbn [ascending] in Hasc. apply andb_true_iff in Hasc as [Hzy Hrest].
      specialize (IH Hrest). cbn [insert_by_distance] in *.
      destruct (float_lt env (distance z) (distance x)) eqn:Hzx.
      * cbn [ascending] in *. now rewrite Hzy, IH.
      * cbn [ascending] in *. now rewrite (Hasym _ _ Hyx), IH.
  - cbn [ascending] in *. now rewrite Hyx, Hasc.
Qed.

(** Whatever retrieval returns is a result of the defensive sort. *)
Lemma retrieve_result_is_sorted_list (query_text session : string) (n : Z)
    (w w' : World float) (records : list (MemoryRecord float)) :
  retrieve_relevant_memories env query_text session n w = (Returned records, w') ->
  exists unsorted, records = sort_by_distance env unsorted.
Proof.
  unfold retrieve_relevant_memories, bind at 1.
  destruct (get_embedding env query_text w) as [[[e|]|exn] w1]; [| |discriminate].
  - unfold try_except, bind.
    destruct (query_memories env (Some e) n None w1) as [[results|exn] w2].
    + unfold first_item, ret, raise.
      destruct (documents results) as [|docs ?];
        [intros H; injection H as <- _; now exists []|].
      destruct (metadatas results) as [|metas ?];
        [intros H; injection H as <- _; now exists []|].
      destruct (distances results) as [|dists ?];
        [intros H; injection H as <- _; now exists []|].
      intros H; injection H as <- _. now eexists.
    + unfold ret. intros H; injection H as <- _. now exists [].
  - unfold ret. intros H; injection H as <- _. now exists [].
Qed.

End MemoryMore.

(** X7.  [get_embedding] raises in one case only: the encoder is not
    loaded and loading it fails; the failure is raised before any text is
    encoded.  In every other case it returns, [None] for a blank text or a
    failed encoding and the vector otherwise, with the encoder loaded from
    then on. *)
Theorem get_embedding_outcomes {float : Type}
    (env : Env float) (text : string) (w : World float) :
  match get_embedding env text w with
  | (Returned embedding, w') =>
      encoder_available env w
      /\ embedding
         = (if String.eqb (PyStr.strip text) EmptyString then None
            else model_encode env text)
      /\ model_loaded w' = true
  | (Raised e, w') =>
      e = BackendError
      /\ model_loaded w = false /\ sentence_transformer env = false
      /\ trace w' = trace w ++ [ModelLoad]
  end.
Proof.
  destruct (model_loaded w) eqn:Hloaded.
  - rewrite (get_embedding_loaded env text w Hloaded).
    repeat split; [now left|].
    now destruct (String.eqb (PyStr.strip text) EmptyString).
  - destruct (sentence_transformer env) eqn:Hload.
    + destruct (get_embedding_returns env text w (or_intror Hload))
        as (w' & events & -> & _ & _ & _ & Hm & _).
      repeat split; [now right | exact Hm].
    + rewrite (get_embedding_load_failure env text w Hloaded Hload).
      now repeat split.
Qed.

(** X8.  The encoder is loaded at most once: after a call of
    [get_embedding] that returned, a further call attempts no load; the only
    collaborator call it can make is the encoding of its own text. *)
Theorem get_embedding_loads_once {float : Type}
    (env : Env float) (first_text next_text : string) (w w1 : World float)
    (embedding : option (list float))
    (Hfirst : get_embedding env first_text w = (Returned embedding, w1)) :
  exists events,
    extends w1 (snd (get_embedding env next_text w1)) events
    /\ Forall (fun ev => ev = Encode next_text) events.
Proof.
  assert (Hloaded : model_loaded w1 = true)
    by exact (get_embedding_returned_loaded env _ _ _ _ Hfirst).
  rewrite (get_embedding_loaded env next_text w1 Hloaded). unfold extends.
  destruct (String.eqb (PyStr.strip next_text) EmptyString); cbn [snd trace].
  - exists []. split; [now rewrite app_nil_r | constructor].
  - exists [Encode next_text]. split; [reflexivity | now repeat constructor].
Qed.

Section StoreMore.

Context {float : Type}.
Variable env : Env float.

Lemma sort_by_distance_perm (records : list (MemoryRecord float)) :
  Permutation (sort_by_distance env records) records.
Proof.
  unfold sort_by_distance.
  induction records as [|x rest IH]; simpl; [constructor|].
  rewrite insert_by_distance_perm. now constructor.
Qed.

Lemma sort_by_distance_ascending (records : list (MemoryRecord float)) :
  (forall a b, float_lt env a b = true -> float_lt env b a = false) ->
  ascending env (sort_by_distance env records) = true.
Proof.
  intros Hasym. unfold sort_by_distance.
  induction records as [|x rest IH]; simpl; [reflexivity|].
  now apply insert_by_distance_ascending.
Qed.

Lemma ascending_tail (x : MemoryRecord float) (rest : list (MemoryRecord float)) :
  ascending env (x :: rest) = true -> ascending env rest = true.
Proof.
  destruct rest as [|y rest]; [reflexivity|].
  cbn [ascending]. intros H. now apply andb_true_iff in H as [_ H].
Qed.

(** [query_memories] on an embedding: it raises only for want of the
    collection, and a failed query gives the empty structure. *)
Lemma query_memories_some (e : list float) (n : Z) (where_filter : option Metadata)
    (w : World float) :
  exists w',
    collection w' = collection w
    /\ query_memories env (Some e) n where_filter w
       = (if collection_loaded w || chroma_open env
          then Returned
                 match collection_query env (collection w) e n where_filter with
                 | Some results => results
                 | None => empty_result
                 end
          else Raised BackendError,
          w').
Proof.
  cbv [query_memories get_chroma_collection bind try_except emit ret raise].
  destruct (collection_loaded w); cbn [orb collection].
  - destruct (collection_query env (collection w) e n where_filter);
      eexists; split; [|reflexivity| |reflexivity]; reflexivity.
  - destruct (chroma_open env); cbn [collection].
    + destruct (collection_query env (collection w) e n where_filter);
        eexists; split; [|reflexivity| |reflexivity]; reflexivity.
    + eexists; split; [|reflexivity]; reflexivity.
Qed.

End StoreMore.

(** X9.  [add_memory] raises in one case only: the collection is not open
    and opening it fails.  Otherwise it returns: with no embedding it stores
    nothing and draws no identifier; with an embedding it draws one
    identifier and the row is in the collection exactly when
    [collection.add] accepted it, a refused row leaving the collection as it
    was. *)
Theorem add_memory_outcomes {float : Type}
    (env : Env float) (embedding : option (list float)) (doc : string)
    (meta : Metadata) (w : World float) :
  match add_memory env embedding doc meta w with
  | (Returned _, w') =>
      collection_available env w
      /\ match embedding with
         | None =>
             collection w' = collection w /\ uuids_drawn w' = uuids_drawn w
         | Some e =>
             let row := mkStoredMemory (uuid4 env (uuids_drawn w)) e doc meta in
             collection w'
             = (if collection_add env (collection w) row
                then collection w ++ [row] else collection w)
             /\ uuids_drawn w' = S (uuids_drawn w)
         end
  | (Raised e, w') =>
      e = BackendError
      /\ collection_loaded w = false /\ chroma_open env = false
      /\ collection w' = collection w
  end.
Proof.
  unfold collection_available.
  cbv [add_memory get_chroma_collection bind fresh_uuid try_except
       collection_add_call emit ret raise].
  destruct (collection_loaded w) eqn:Hloaded.
  - destruct embedding as [e|]; cbn [collection uuids_drawn].
    + destruct (collection_add env (collection w) _);
        cbn [collection uuids_drawn]; repeat split; auto.
    + repeat split; auto.
  - destruct (chroma_open env) eqn:Hopen.
    + destruct embedding as [e|]; cbn [collection uuids_drawn].
      * destruct (collection_add env (collection w) _);
          cbn [collection uuids_drawn]; repeat split; auto.
      * repeat split; auto.
    + repeat split; auto.
Qed.

(** X10.  [query_memories] raises in one case only: the collection is not
    open and opening it fails.  Otherwise it returns what the collection
    answered, or the structure of three empty columns when there is no
    query embedding or the query raised; the collection is never changed. *)
Theorem query_memories_outcomes {float : Type}
    (env : Env float) (query_embedding : option (list float)) (n_results : Z)
    (where_filter : option Metadata) (w : World float) :
  match query_memories env query_embedding n_results where_filter w with
  | (Returned results, w') =>
      collection_available env w
      /\ collection w' = collection w
      /\ results
         = match query_embedding with
           | None => mkQueryResult [[]] [[]] [[]]
           | Some e =>
               match collection_query env (collection w) e n_results
                       where_filter with
               | Some answered => answered
               | None => mkQueryResult [[]] [[]] [[]]
               end
           end
  | (Raised e, w') =>
      e = BackendError
      /\ collection_loaded w = false /\ chroma_open env = false
      /\ collection w' = collection w
  end.
Proof.
  unfold collection_available.
  destruct query_embedding as [e|].
  - destruct (query_memories_some env e n_results where_filter w)
      as (w' & Hc & ->).
    destruct (collection_loaded w) eqn:Hloaded; cbn [orb].
    + repeat split; auto.
    + destruct (chroma_open env) eqn:Hopen; repeat split; auto.
  - cbv [query_memories get_chroma_collection bind ret].
    destruct (collection_loaded w) eqn:Hloaded.
    + repeat split; auto.
    + destruct (chroma_open env) eqn:Hopen; repeat split; auto.
Qed.

(** X11.  With the encoder handle at hand, [retrieve_relevant_memories]
    always returns and never changes the collection, whatever the store
    does; the list is empty when the collection cannot be opened and when
    the query raises. *)
Theorem retrieve_relevant_memories_always_returns {float : Type}
    (env : Env float) (query_text session : string) (n_results : Z)
    (w : World float)
    (Hencoder : encoder_available env w) :
  exists records w',
    retrieve_relevant_memories env query_text session n_results w
    = (Returned records, w')
    /\ collection w' = collection w
    /\ (collection_loaded w || chroma_open env = false -> records = [])
    /\ (forall e,
          embedding_of env query_text = Some e ->
          collection_query env (collection w) e n_results None = None ->
          records = []).
Proof.
  destruct (get_embedding_returns env query_text w Hencoder)
    as (w1 & events & Hrun & _ & _ & Hc1 & _ & Hl1 & _).
  unfold retrieve_relevant_memories, bind at 1. rewrite Hrun.
  destruct (embedding_of env query_text) as [e|].
  2:{ exists [], w1. unfold ret. repeat split; auto; discriminate. }
  destruct (query_memories_some env e n_results None w1) as (w2 & Hc2 & Hq).
  rewrite Hl1, Hc1 in Hq.
  unfold try_except, bind. rewrite Hq.
  destruct (collection_loaded w || chroma_open env) eqn:Havail.
  - destruct (collection_query env (collection w) e n_results None)
      as [results|] eqn:Hquery.
    + unfold first_item, ret, raise.
      destruct (documents results) as [|docs ?];
        [|destruct (metadatas results) as [|metas ?];
          [|destruct (distances results) as [|dists ?]]];
        eexists; exists w2; (split; [reflexivity|]);
        (split; [congruence|]); (split; [discriminate|]);
        intros e' He' Hnone; injection He' as <-; congruence.
    + exists [], w2. cbn. repeat split; auto; congruence.
  - exists [], w2. unfold ret. repeat split; auto; congruence.
Qed.

Lemma retrieve_relevant_memories_always_returns_witness :
  let env := sample_env llm_up loads_sample in
  let w : World Z := started_world [] in
  encoder_available env w
  /\ exists records w',
       retrieve_relevant_memories env "hello" "s" 5 w = (Returned records, w')
       /\ collection w' = collection w.
Proof.
  intros env w.
  assert (Hencoder : encoder_available env w) by (right; reflexivity).
  split; [exact Hencoder|].
  destruct (retrieve_relevant_memories_always_returns env "hello" "s" 5 w
              Hencoder) as (records & w' & Hrun & Hc & _).
  now exists records, w'.
Defined.

(** X12.  The defensive sort keeps exactly the records it is given, and
    when no two distances are each less than the other its result has no
    record followed by one at a smaller distance. *)
Theorem sort_by_distance_sorts {float : Type}
    (env : Env float) (records : list (MemoryRecord float))
    (Hasym : forall a b, float_lt env a b = true -> float_lt env b a = false) :
  Permutation (sort_by_distance env records) records
  /\ ascending env (sort_by_distance env records) = true.
Proof.
  split; [apply sort_by_distance_perm | now apply sort_by_distance_ascending].
Qed.

(** X13.  On records that are already in ascending order of distance, as
    the store is expected to return them, the defensive sort changes
    nothing. *)
Theorem sort_by_distance_keeps_sorted {float : Type}
    (env : Env float) (records : list (MemoryRecord float))
    (Hsorted : ascending env records = true) :
  sort_by_distance env records = records.
Proof.
  unfold sort_by_distance.
  induction records as [|x rest IH]; [reflexivity|].
  cbn [fold_right]. rewrite (IH (ascending_tail env x rest Hsorted)).
  destruct rest as [|y rest]; [reflexivity|].
  cbn [ascending] in Hsorted. apply andb_true_iff in Hsorted as [Hyx _].
  cbn [insert_by_distance].
  now destruct (float_lt env (distance y) (distance x)).
Qed.

(** X14.  Whatever the store answers, in whatever order, the list that
    [retrieve_relevant_memories] returns is in ascending order of distance
    (for a comparison in which no two distances are each less than the
    other). *)
Theorem retrieve_relevant_memories_ascending {float : Type}
    (env : Env float) (query_text session : string) (n_results : Z)
    (w w' : World float) (records : list (MemoryRecord float))
    (Hasym : forall a b, float_lt env a b = true -> float_lt env b a = false)
    (Hrun : retrieve_relevant_memories env query_text session n_results w
            = (Returned records, w')) :
  ascending env records = true.
Proof.
  destruct (retrieve_result_is_sorted_list env _ _ _ _ _ _ Hrun)
    as (unsorted & ->).
  now apply sort_by_distance_ascending.
Qed.

(* ================================================================== *)
(** * Further properties of the stages and of the graph *)

Section NodeMore.

Context {float : Type}.
Variable env : Env float.

Lemma or_empty_falsy (o : option string) :
  PyStr.truthy o = false -> PyStr.or_empty o = EmptyString.
Proof.
  unfold PyStr.truthy, PyStr.or_empty. destruct o as [s|]; [|reflexivity].
  destruct (String.eqb s EmptyString); [reflexivity | discriminate].
Qed.


(** The query text for an analysis that is an object: the chain's answer,
    or the template when the chain fails. *)
Lemma memory_query_text_object (state : AgentState float)
    (fields : list (string * Json float)) (w : World float) :
  let get key default :=
    match lookup_field key fields with Some v => v | None => default end in
  let call :=
    MemoryRetrievalQuery (user_input state) (get "key_topics" (JStr "None"))
      (get "dominant_emotion" (JStr "neutral"))
      (history_for env state (MAX_CONVERSATION_HISTORY_TOKENS / 4)) in
  memory_query_text env state (JObj fields) w
  = (Returned
       match chain_invoke env call with
       | Some query_text => query_text
       | None =>
           ("Topics: " ++ py_str env (get "key_topics" (JArr []))
            ++ ", Emotion: " ++ py_str env (get "dominant_emotion" (JStr "neutral"))
            ++ ". User input: " ++ user_input state)%string
       end,
     mkWorld (trace w ++ [LlmInvoke call]) (collection w) (model_loaded w)
       (collection_loaded w) (clock_reads w) (uuids_drawn w)).
Proof.
  intros get call. unfold memory_query_text, try_except, bind, dict_get.
  subst get call. cbv beta.
  destruct (lookup_field "key_topics" fields);
    destruct (lookup_field "dominant_emotion" fields);
    unfold ret; rewrite invoke_chain_run;
    destruct (chain_invoke env _); reflexivity.
Qed.




(** The retrieval stage on an analysis that is a non-empty object without
    a truthy ["error"] entry, entered without an error: the query text is
    built and the retrieval block runs on it. *)
Lemma retrieve_memory_node_object (state : AgentState float)
    (fields : list (string * Json float)) (w : World float) :
  PyStr.truthy (error state) = false ->
  input_analysis state = Some (JObj fields) ->
  fields <> [] ->
  match lookup_field "error" fields with
  | Some v => json_truthy env v
  | None => false
  end = false ->
  retrieve_memory_node env state w
  = bind (memory_query_text env state (JObj fields)) (perform_retrieval env state) w.
Proof.
  intros Herr Hanalysis Hfields Hok.
  unfold retrieve_memory_node. rewrite Herr, Hanalysis.
  cbn [analysis_truthy json_truthy orb].
  destruct fields as [|f fields']; [now contradiction Hfields|].
  cbn [negb]. unfold bind at 1, dict_get.
  destruct (lookup_field "error" (f :: fields')) as [v|]; unfold ret.
  - rewrite Hok. reflexivity.
  - reflexivity.
Qed.

(** The graph from its entry point, for any recursion limit of at least
    four: the three early stages in sequence, then the generation stage
    unless an error is recorded. *)
Lemma run_graph_composition (extra : nat) (state : AgentState float)
    (w : World float) :
  run_graph env (4 + extra) process_input state w
  = bind (before_routing env state)
      (fun s3 =>
         if PyStr.truthy (error s3) then ret s3
         else generate_response_node env s3) w.
Proof.
  unfold before_routing.
  change (4 + extra) with (S (S (S (S extra)))).
  rewrite run_graph_step by discriminate.
  unfold bind at 1 3 4. cbn [run_node].
  destruct (process_input_node env state w) as [[s1|exn] w1]; [|reflexivity].
  rewrite (bind_returned _ _ retrieve_memory w1 w1) by reflexivity.
  rewrite run_graph_step by discriminate.
  unfold bind at 1 3. cbn [run_node].
  destruct (retrieve_memory_node env s1 w1) as [[s2|exn] w2]; [|reflexivity].
  rewrite (bind_returned _ _ ethical_check w2 w2) by reflexivity.
  rewrite run_graph_step by discriminate.
  unfold bind at 1. cbn [run_node].
  destruct (ethical_check_node env s2 w2) as [[s3|exn] w3]; [|reflexivity].
  unfold next_node, should_continue.
  destruct (PyStr.truthy (error s3)).
  - rewrite (bind_returned _ _ END w3 w3) by reflexivity.
    now rewrite run_graph_end.
  - rewrite (bind_returned _ _ generate_response w3 w3)
      by (destruct (needs_escalation s3); reflexivity).
    rewrite run_graph_step by discriminate.
    unfold bind at 1. cbn [run_node].
    destruct (generate_response_node env s3 w3) as [[final|exn] w4];
      [|reflexivity].
    rewrite (bind_returned _ _ END w4 w4) by reflexivity.
    now rewrite run_graph_end.
Qed.

End NodeMore.



(** X16.  When the analysis chain answers with JSON that is not an object
    but is truthy (a non-empty array or string, a non-zero number, [true]),
    the retrieval stage calls [.get] on it and raises [AttributeError]; no
    stage handles it, so the whole turn raises, after the one chain call of
    the analysis. *)
Theorem non_object_analysis_raises {float : Type}
    (env : Env float) (state : AgentState float) (w : World float)
    (answer : string) (analysis : Json float)
    (Hno_error : PyStr.truthy (error state) = false)
    (Hanswer :
       chain_invoke env
         (InputAnalysis (user_input state)
            (history_for env state (MAX_CONVERSATION_HISTORY_TOKENS / 2)))
       = Some answer)
    (Hparsed : json_loads env (cleaned_analysis answer) = Some analysis)
    (Htruthy : json_truthy env analysis = true)
    (Hnot_object : is_object analysis = false) :
  exists w',
    invoke env state w = (Raised AttributeError, w')
    /\ trace w'
       = trace w
         ++ [LlmInvoke
               (InputAnalysis (user_input state)
                  (history_for env state (MAX_CONVERSATION_HISTORY_TOKENS / 2)))].
Proof.
  unfold invoke, RECURSION_LIMIT. change 25 with (4 + 21).
  rewrite run_graph_composition. unfold before_routing.
  unfold bind at 1 2 3. rewrite process_input_node_run. cbv zeta.
  rewrite Hanswer, Hparsed.
  unfold retrieve_memory_node.
  cbn [error input_analysis set_input_analysis analysis_truthy].
  rewrite Hno_error, Htruthy. cbn [orb negb].
  unfold bind, dict_get.
  destruct analysis; try discriminate; unfold raise;
    eexists; split; reflexivity.
Qed.

Lemma non_object_analysis_raises_witness :
  let env := sample_env llm_up loads_array in
  let state : AgentState Z := current_state "s" "hello" [] in
  let w : World Z := started_world [] in
  PyStr.truthy (error state) = false
  /\ json_loads env (cleaned_analysis "ok") = Some (JArr [JInt 1])
  /\ json_truthy env (JArr [JInt 1]) = true
  /\ is_object (JArr [JInt 1 : Json Z]) = false
  /\ exists w', invoke env state w = (Raised AttributeError, w').
Proof.
  intros env state w.
  repeat (split; [reflexivity|]).
  destruct (non_object_analysis_raises env state w "ok" (JArr [JInt 1])
              eq_refl eq_refl eq_refl eq_refl eq_refl) as (w' & Hrun & _).
  now exists w'.
Defined.





(** X19.  When the safety stage runs its checks on an ASCII user input
    and the assessment chain, when it answers, answers in ASCII, its verdict
    is exactly the disjunction of the two checks: [needs_escalation] is true
    when a keyword matches or the assessment, trimmed and upper-cased, reads
    [YES], and false otherwise; a failed assessment counts as no and leaves
    the note [" Ethical check LLM failed."] in [error].  The assessment
    chain is invoked exactly once, also when a keyword has matched. *)
Theorem ethical_check_verdict {float : Type}
    (env : Env float) (state : AgentState float) (w : World float)
    (Hentered : PyStr.truthy (error state) = false)
    (Hinput_ascii : is_ascii (user_input state) = true)
    (Hanswer_ascii :
       match
         chain_invoke env
           (EthicalRiskAssessment (user_input state)
              (history_for env state (MAX_CONVERSATION_HISTORY_TOKENS / 4)))
       with
       | Some assessment => is_ascii assessment = true
       | None => True
       end) :
  let call :=
    EthicalRiskAssessment (user_input state)
      (history_for env state (MAX_CONVERSATION_HISTORY_TOKENS / 4)) in
  exists state' w',
    ethical_check_node env state w = (Returned state', w')
    /\ needs_escalation state'
       = (simple_keyword_check (user_input state) POTENTIAL_RISK_KEYWORDS
          || match chain_invoke env call with
             | Some assessment =>
                 String.eqb (PyStr.upper (PyStr.strip assessment)) "YES"
             | None => false
             end)
    /\ error state'
       = match chain_invoke env call with
         | Some _ => error state
         | None => Some " Ethical check LLM failed."
         end
    /\ trace w' = trace w ++ [LlmInvoke call]
    /\ collection w' = collection w.
Proof.
  intros call.
  rewrite (ethical_check_node_run env state w Hentered). cbv zeta. fold call.
  destruct (chain_invoke env call) as [assessment|].
  - eexists; eexists; repeat split.
  - eexists; eexists. split; [reflexivity|].
    cbn [needs_escalation error set_needs_escalation set_error trace collection].
    rewrite (or_empty_falsy _ Hentered), orb_false_r. repeat split.
Qed.

Lemma ethical_check_verdict_witness :
  let env := sample_env (llm_assessing (" yes" ++ PyStr.nl)) loads_sample in
  let state : AgentState Z := current_state "s" "nothing special" [] in
  let w : World Z := started_world [] in
  PyStr.truthy (error state) = false
  /\ is_ascii (user_input state) = true
  /\ is_ascii (" yes" ++ PyStr.nl) = true
  /\ simple_keyword_check (user_input state) POTENTIAL_RISK_KEYWORDS = false
  /\ exists state' w',
       ethical_check_node env state w = (Returned state', w')
       /\ needs_escalation state' = true
       /\ error state' = None.
Proof.
  intros env state w.
  split; [reflexivity|]. split; [reflexivity|]. split; [reflexivity|].
  split; [reflexivity|].
  destruct (ethical_check_verdict env state w eq_refl eq_refl eq_refl)
    as (state' & w' & Hrun & Hesc & Herr & _).
  exists state', w'. split; [exact Hrun|]. split; [exact Hesc | exact Herr].
Defined.

(** X20.  The generation stage always returns and always sets a reply:
    the error reply when an error is recorded (also when escalation is
    flagged), else the escalation message when escalation is flagged, else
    the chain's answer, or the trouble reply when the chain fails.  A
    failure to store the turn never changes the reply. *)
Theorem generate_response_node_always_replies {float : Type}
    (env : Env float) (state : AgentState float) (w : World float) :
  exists state' w',
    generate_response_node env state w = (Returned state', w')
    /\ generated_response state'
       = Some
           (if PyStr.truthy (error state) then ERROR_REPLY
            else if needs_escalation state then ESCALATION_MESSAGE
            else
              match
                chain_invoke env
                  (ResponseGeneration (user_input state)
                     (json_dumps env
                        match input_analysis state with
                        | Some j => j
                        | None => JNull
                        end)
                     (format_memories env (retrieved_memories state))
                     (history_for env state MAX_CONVERSATION_HISTORY_TOKENS))
              with
              | Some response => response
              | None => TROUBLE_REPLY
              end).
Proof.
  destruct (PyStr.truthy (error state)) eqn:Herr.
  { unfold generate_response_node. rewrite Herr. now eexists; eexists. }
  destruct (needs_escalation state) eqn:Hesc.
  { unfold generate_response_node. rewrite Herr, Hesc. now eexists; eexists. }
  rewrite (generate_response_node_normal env state w Herr Hesc). cbv zeta.
  destruct (chain_invoke env _) as [response|]; [|now eexists; eexists].
  destruct (add_interaction env _ _ _ _) as [[[]|exn] w2];
    now eexists; eexists.
Qed.

(** X21.  When the generation chain fails, the stage answers with the
    trouble reply, records [" Failed to generate response."], makes no other
    collaborator call and stores nothing; [run_chat] then leaves the turn
    out of the conversation history. *)
Theorem generation_failure_not_persisted {float : Type}
    (env : Env float) (state : AgentState float) (w : World float)
    (Hno_error : PyStr.truthy (error state) = false)
    (Hno_escalation : needs_escalation state = false)
    (Hfails :
       chain_invoke env
         (ResponseGeneration (user_input state)
            (json_dumps env
               match input_analysis state with Some j => j | None => JNull end)
            (format_memories env (retrieved_memories state))
            (history_for env state MAX_CONVERSATION_HISTORY_TOKENS))
       = None) :
  exists state' w',
    generate_response_node env state w = (Returned state', w')
    /\ generated_response state' = Some TROUBLE_REPLY
    /\ error state' = Some " Failed to generate response."
    /\ chain_calls (trace w')
       = chain_calls (trace w)
         ++ [ResponseGeneration (user_input state)
               (json_dumps env
                  match input_analysis state with Some j => j | None => JNull end)
               (format_memories env (retrieved_memories state))
               (history_for env state MAX_CONVERSATION_HISTORY_TOKENS)]
    /\ added_rows (trace w') = added_rows (trace w)
    /\ collection w' = collection w
    /\ history_updated state' = false.
Proof.
  rewrite (generate_response_node_normal env state w Hno_error Hno_escalation).
  cbv zeta. rewrite Hfails.
  eexists; eexists. split; [reflexivity|].
  cbn [generated_response error set_generated_response set_error trace collection].
  rewrite (or_empty_falsy _ Hno_error).
  repeat split.
  - clear. induction (trace w) as [|ev rest IH]; [reflexivity|].
    destruct ev; cbn [app chain_calls]; now rewrite IH.
  - rewrite added_rows_app. cbn. now rewrite app_nil_r.
Qed.

Lemma generation_failure_not_persisted_witness :
  let env := sample_env llm_without_generation loads_sample in
  let state : AgentState Z := current_state "s" "hello" [] in
  let w : World Z := started_world [] in
  PyStr.truthy (error state) = false
  /\ needs_escalation state = false
  /\ exists state' w',
       generate_response_node env state w = (Returned state', w')
       /\ generated_response state' = Some TROUBLE_REPLY
       /\ collection w' = []
       /\ history_updated state' = false.
Proof.
  intros env state w.
  split; [reflexivity|]. split; [reflexivity|].
  destruct (generation_failure_not_persisted env state w eq_refl eq_refl eq_refl)
    as (state' & w' & Hrun & Hreply & _ & _ & _ & Hcoll & Hhist).
  exists state', w'. repeat split; assumption.
Defined.

(** X22.  When the reply has been generated but the encoder cannot be
    loaded, the reply stands: the stage returns it, records
    [" Failed to save interaction to memory."], stores nothing, and
    [run_chat] still appends the turn to the conversation history. *)
Theorem persistence_failure_keeps_reply {float : Type}
    (env : Env float) (state : AgentState float) (w : World float)
    (response : string)
    (Hno_error : PyStr.truthy (error state) = false)
    (Hno_escalation : needs_escalation state = false)
    (Hanswer :
       chain_invoke env
         (ResponseGeneration (user_input state)
            (json_dumps env
               match input_analysis state with Some j => j | None => JNull end)
            (format_memories env (retrieved_memories state))
            (history_for env state MAX_CONVERSATION_HISTORY_TOKENS))
       = Some response)
    (Hnot_loaded : model_loaded w = false)
    (Hload_fails : sentence_transformer env = false) :
  exists state' w',
    generate_response_node env state w = (Returned state', w')
    /\ generated_response state' = Some response
    /\ error state' = Some " Failed to save interaction to memory."
    /\ added_rows (trace w') = added_rows (trace w)
    /\ collection w' = collection w
    /\ history_updated state' = true.
Proof.
  rewrite (generate_response_node_normal env state w Hno_error Hno_escalation).
  cbv zeta. rewrite Hanswer.
  unfold add_interaction, utc_timestamp. unfold bind at 1 2.
  rewrite get_embedding_load_failure by assumption.
  eexists; eexists. split; [reflexivity|].
  cbn [generated_response error set_generated_response set_error trace collection].
  rewrite (or_empty_falsy _ Hno_error).
  repeat split.
  rewrite <- app_assoc, added_rows_app. cbn. now rewrite app_nil_r.
Qed.

Lemma persistence_failure_keeps_reply_witness :
  let env := sample_env_no_encoder llm_up loads_sample in
  let state : AgentState Z := current_state "s" "hello" [] in
  let w : World Z := started_world [] in
  PyStr.truthy (error state) = false
  /\ needs_escalation state = false
  /\ model_loaded w = false
  /\ sentence_transformer env = false
  /\ exists state' w',
       generate_response_node env state w = (Returned state', w')
       /\ generated_response state' = Some "ok"
       /\ error state' = Some " Failed to save interaction to memory."
       /\ collection w' = []
       /\ history_updated state' = true.
Proof.
  intros env state w.
  repeat (split; [reflexivity|]).
  destruct (persistence_failure_keeps_reply env state w "ok"
              eq_refl eq_refl eq_refl eq_refl eq_refl)
    as (state' & w' & Hrun & Hreply & Herr & _ & Hcoll & Hhist).
  exists state', w'. repeat split; assumption.
Defined.

(** X23.  A turn that reaches the conditional edge with escalation flagged
    and no error recorded ends with the escalation message as its reply, in
    the world the safety stage left: the generation stage adds no
    collaborator call and stores nothing; [run_chat] appends the turn to the
    conversation history. *)
Theorem escalated_turn_reply {float : Type}
    (env : Env float) (state s3 : AgentState float) (w w3 : World float)
    (Hearly : before_routing env state w = (Returned s3, w3))
    (Hno_error : PyStr.truthy (error s3) = false)
    (Hescalate : needs_escalation s3 = true) :
  invoke env state w
  = (Returned (set_generated_response s3 (Some ESCALATION_MESSAGE)), w3)
  /\ history_updated (set_generated_response s3 (Some ESCALATION_MESSAGE)) = true.
Proof.
  split.
  - unfold invoke, RECURSION_LIMIT. change 25 with (4 + 21).
    rewrite run_graph_composition. unfold bind. rewrite Hearly, Hno_error.
    unfold generate_response_node. now rewrite Hno_error, Hescalate.
  - unfold history_updated. cbn [error set_generated_response].
    now rewrite Hno_error.
Qed.

Lemma escalated_turn_reply_witness :
  let env := sample_env llm_up loads_sample in
  let state : AgentState Z := current_state "s" "I feel hopeless" [] in
  let w : World Z := started_world [] in
  exists s3 w3,
    before_routing env state w = (Returned s3, w3)
    /\ PyStr.truthy (error s3) = false
    /\ needs_escalation s3 = true
    /\ invoke env state w
       = (Returned (set_generated_response s3 (Some ESCALATION_MESSAGE)), w3).
Proof.
  intros env state w. do 2 eexists.
  split; [vm_compute; reflexivity|].
  split; [reflexivity|]. split; [reflexivity|].
  exact (proj1 (escalated_turn_reply env state _ w _ eq_refl eq_refl eq_refl)).
Defined.

(** X24.  When the retrieval stage is reached with a usable analysis but
    the encoder cannot be loaded, the failure is caught by the stage: it
    returns with [error] set to ["Failed to retrieve memories."] and with an
    empty list of memories, and the collection is untouched. *)
Theorem retrieval_without_encoder {float : Type}
    (env : Env float) (state : AgentState float) (w : World float)
    (fields : list (string * Json float))
    (Hno_error : PyStr.truthy (error state) = false)
    (Hanalysis : input_analysis state = Some (JObj fields))
    (Hfields : fields <> [])
    (Hno_tag :
       match lookup_field "error" fields with
       | Some v => json_truthy env v
       | None => false
       end = false)
    (Hnot_loaded : model_loaded w = false)
    (Hload_fails : sentence_transformer env = false) :
  exists state' w',
    retrieve_memory_node env state w = (Returned state', w')
    /\ error state' = Some "Failed to retrieve memories."
    /\ retrieved_memories state' = Some []
    /\ generated_response state' = generated_response state
    /\ collection w' = collection w.
Proof.
  rewrite (retrieve_memory_node_object env state fields w
             Hno_error Hanalysis Hfields Hno_tag).
  unfold bind at 1. rewrite memory_query_text_object. cbv zeta.
  unfold perform_retrieval, try_except, bind at 1.
  unfold retrieve_relevant_memories, bind at 1.
  rewrite get_embedding_load_failure by assumption.
  eexists; eexists. repeat split.
Qed.

Lemma retrieval_without_encoder_witness :
  let env := sample_env_no_encoder llm_up loads_sample in
  let w : World Z := started_world [] in
  PyStr.truthy (error analysed_state) = false
  /\ input_analysis analysed_state = Some (JObj sample_fields)
  /\ sample_fields <> []
  /\ model_loaded w = false
  /\ sentence_transformer env = false
  /\ exists state' w',
       retrieve_memory_node env analysed_state w = (Returned state', w')
       /\ error state' = Some "Failed to retrieve memories."
       /\ retrieved_memories state' = Some [].
Proof.
  intros env w.
  assert (Hfields : sample_fields <> []) by discriminate.
  split; [reflexivity|]. split; [reflexivity|]. split; [exact Hfields|].
  split; [reflexivity|]. split; [reflexivity|].
  destruct (retrieval_without_encoder env analysed_state w sample_fields
              eq_refl eq_refl Hfields eq_refl eq_refl eq_refl)
    as (state' & w' & Hrun & Herr & Hmem & _).
  exists state', w'. repeat split; assumption.
Defined.

(** X25.  When the chain that writes the memory query fails, the retrieval
    stage does not record an error: it goes on to the retrieval block with
    the templated query text, built from the analysis' topics and emotion
    (an empty list and ["neutral"] when the analysis lacks them) and the
    user input. *)
Theorem retrieval_query_fallback {float : Type}
    (env : Env float) (state : AgentState float) (w : World float)
    (fields : list (string * Json float))
    (Hno_error : PyStr.truthy (error state) = false)
    (Hanalysis : input_analysis state = Some (JObj fields))
    (Hfields : fields <> [])
    (Hno_tag :
       match lookup_field "error" fields with
       | Some v => json_truthy env v
       | None => false
       end = false)
    (Hquery_fails :
       chain_invoke env
         (MemoryRetrievalQuery (user_input state)
            match lookup_field "key_topics" fields with
            | Some v => v
            | None => JStr "None"
            end
            match lookup_field "dominant_emotion" fields with
            | Some v => v
            | None => JStr "neutral"
            end
            (history_for env state (MAX_CONVERSATION_HISTORY_TOKENS / 4)))
       = None) :
  exists w1,
    retrieve_memory_node env state w
    = perform_retrieval env state
        ("Topics: "
         ++ py_str env
              match lookup_field "key_topics" fields with
              | Some v => v
              | None => JArr []
              end
         ++ ", Emotion: "
         ++ py_str env
              match lookup_field "dominant_emotion" fields with
              | Some v => v
              | None => JStr "neutral"
              end
         ++ ". User input: " ++ user_input state)%string
        w1
    /\ collection w1 = collection w
    /\ model_loaded w1 = model_loaded w
    /\ collection_loaded w1 = collection_loaded w.
Proof.
  rewrite (retrieve_memory_node_object env state fields w
             Hno_error Hanalysis Hfields Hno_tag).
  unfold bind. rewrite memory_query_text_object. cbv zeta.
  rewrite Hquery_fails. eexists. repeat split.
Qed.

Lemma retrieval_query_fallback_witness :
  let env := sample_env llm_without_query loads_sample in
  let w : World Z := started_world [] in
  PyStr.truthy (error analysed_state) = false
  /\ input_analysis analysed_state = Some (JObj sample_fields)
  /\ sample_fields <> []
  /\ exists w1,
       retrieve_memory_node env analysed_state w
       = perform_retrieval env analysed_state
           "Topics: [], Emotion: []. User input: hello" w1
       /\ collection w1 = collection w.
Proof.
  intros env w.
  assert (Hfields : sample_fields <> []) by discriminate.
  split; [reflexivity|]. split; [reflexivity|]. split; [exact Hfields|].
  destruct (retrieval_query_fallback env analysed_state w sample_fields
              eq_refl eq_refl Hfields eq_refl eq_refl)
    as (w1 & Hrun & Hcoll & _).
  exists w1. split; [exact Hrun | exact Hcoll].
Defined.

(* ================================================================== *)
(** * The further statements at concrete inputs *)

Lemma get_embedding_loads_once_witness :
  let env := sample_env llm_up loads_sample in
  let w : World Z := started_world [] in
  exists embedding w1,
    get_embedding env "first" w = (Returned embedding, w1)
    /\ exists events,
         extends w1 (snd (get_embedding env "next" w1)) events
         /\ Forall (fun ev => ev = Encode "next") events.
Proof.
  intros env w. do 2 eexists.
  split; [vm_compute; reflexivity|].
  exact (get_embedding_loads_once env "first" "next" w _ _ eq_refl).
Defined.

Lemma sort_by_distance_sorts_witness :
  let env := sample_env llm_up loads_sample in
  (forall a b, float_lt env a b = true -> float_lt env b a = false)
  /\ Permutation (sort_by_distance env [far_record; near_record])
       [far_record; near_record]
  /\ ascending env (sort_by_distance env [far_record; near_record]) = true.
Proof.
  intros env.
  assert (Hasym : forall a b, float_lt env a b = true -> float_lt env b a = false).
  { intros a b H. cbn in *. apply Z.ltb_lt in H. apply Z.ltb_ge. lia. }
  split; [exact Hasym|].
  exact (sort_by_distance_sorts env [far_record; near_record] Hasym).
Defined.

Lemma sort_by_distance_keeps_sorted_witness :
  let env := sample_env llm_up loads_sample in
  ascending env [near_record; far_record] = true
  /\ sort_by_distance env [near_record; far_record] = [near_record; far_record].
Proof.
  intros env. split; [reflexivity|].
  exact (sort_by_distance_keeps_sorted env [near_record; far_record] eq_refl).
Defined.

Lemma retrieve_relevant_memories_ascending_witness :
  let env := sample_env llm_up loads_sample in
  let w : World Z :=
    started_world [mkStoredMemory "id-0" [3%Z] "User said: hi" []] in
  (forall a b, float_lt env a b = true -> float_lt env b a = false)
  /\ exists records w',
       retrieve_relevant_memories env "hello" "s" 5 w = (Returned records, w')
       /\ ascending env records = true.
Proof.
  intros env w.
  assert (Hasym : forall a b, float_lt env a b = true -> float_lt env b a = false).
  { intros a b H. cbn in *. apply Z.ltb_lt in H. apply Z.ltb_ge. lia. }
  split; [exact Hasym|].
  do 2 eexists.
  assert (Hrun : retrieve_relevant_memories env "hello" "s" 5 w
                 = (Returned (match fst (retrieve_relevant_memories env "hello" "s" 5 w) with
                              | Returned r => r
                              | Raised _ => []
                              end),
                    snd (retrieve_relevant_memories env "hello" "s" 5 w)))
    by (vm_compute; reflexivity).
  split; [exact Hrun|].
  exact (retrieve_relevant_memories_ascending env "hello" "s" 5 w _ _ Hasym Hrun).
Defined.
